(** * Near-Earth-object explorer: filters, limiter, loaders and writers

    A shallow embedding of [models.py], [filters.py], [extract.py] and
    [write.py], followed by the properties checked against the
    specification.  Python values are modelled by the inductive [pyobj],
    raised exceptions by the [Raise] case of [result], floats by IEEE-754
    binary64 values ([spec_float] at precision 53, maximal exponent 1024),
    dictionaries produced by [csv.DictReader] by [gmap string string]. *)

From Stdlib Require Import ZArith String Ascii List Lia DecimalString.
From Stdlib Require Import Floats.SpecFloat.
From stdpp Require Import base gmap strings list.

Open Scope string_scope.
Set Warnings "-register-all".

(** ** The Python runtime the sources rely on *)

Module Py.

(** Exceptions raised by the sources or by the builtins they call.
    [UnsupportedCriterionError] is the only class the repository declares
    ([filters.py], a subclass of [NotImplementedError]). *)
Inductive exn : Type :=
  | UnsupportedCriterionError
  | ValueError
  | TypeError
  | KeyError
  | IndexError
  | AttributeError.

(** The outcome of evaluating a Python expression. *)
Inductive result (A : Type) : Type :=
  | Return (a : A)
  | Raise (e : exn).
Arguments Return {A} a.
Arguments Raise {A} e.

#[global] Instance result_ret : MRet result := @Return.
#[global] Instance result_bind : MBind result := λ A B f m,
  match m with
  | Return a => f a
  | Raise e => Raise e
  end.

Definition raises {A} (m : result A) : Prop := ∃ e, m = Raise e.

(** [sys.maxsize], on a 64-bit build. *)
Definition maxsize : Z := 2 ^ 63 - 1.

(** *** float *)

Definition float : Type := spec_float.
Definition prec : Z := 53.
Definition emax : Z := 1024.

Definition nan : float := S754_nan.
Definition float_eq (x y : float) : bool := SFeqb x y.
Definition float_le (x y : float) : bool := SFleb x y.
Definition float_ge (x y : float) : bool := SFleb y x.
Definition float_of_bool (b : bool) : float :=
  if b then binary_round prec emax false 1 0 else S754_zero false.

(** The value [m * 10 ^ e] rounded to the nearest binary64 float (ties to
    even), as [float] does for a decimal literal. *)
Definition float_of_decimal (neg : bool) (m e : Z) : float :=
  match m with
  | Zpos p =>
      if (0 <=? e)%Z
      then binary_normalize prec emax (if neg then - (m * 10 ^ e) else m * 10 ^ e)%Z 0 neg
      else let '(q, e', l) := SFdiv_core_binary prec emax m 0 (10 ^ (- e))%Z 0 in
           binary_round_aux prec emax neg q e' l
  | _ => S754_zero neg
  end.

(** *** Strings

    A Python [str] is a sequence of code points; a [string] stands for it
    by its UTF-8 encoding. *)

Definition continuation (n : N) : bool := ((128 <=? n) && (n <? 192))%N.

(** The code points a UTF-8 string encodes; a byte that starts no
    well-formed sequence gives U+FFFD. *)
Fixpoint code_points (l : list ascii) : list N :=
  match l with
  | [] => []
  | b0 :: l1 =>
      let n0 := N_of_ascii b0 in
      if (n0 <? 128)%N then n0 :: code_points l1
      else
        match l1 with
        | b1 :: l2 =>
            let n1 := N_of_ascii b1 in
            if negb (continuation n1) then 0xfffd%N :: code_points l1
            else if ((0xc2 <=? n0) && (n0 <? 0xe0))%N
            then ((n0 - 0xc0) * 64 + (n1 - 128))%N :: code_points l2
            else
              match l2 with
              | b2 :: l3 =>
                  let n2 := N_of_ascii b2 in
                  let c3 := ((n0 - 0xe0) * 4096 + (n1 - 128) * 64 + (n2 - 128))%N in
                  if negb (continuation n2) then 0xfffd%N :: code_points l1
                  else if ((0xe0 <=? n0) && (n0 <? 0xf0) && (0x800 <=? c3)
                           && negb ((0xd800 <=? c3) && (c3 <? 0xe000)))%N
                  then c3 :: code_points l3
                  else
                    match l3 with
                    | b3 :: l4 =>
                        let n3 := N_of_ascii b3 in
                        let c4 := ((n0 - 0xf0) * 262144 + (n1 - 128) * 4096
                                   + (n2 - 128) * 64 + (n3 - 128))%N in
                        if (continuation n3 && (0xf0 <=? n0) && (n0 <? 0xf5)
                            && (0x10000 <=? c4) && (c4 <? 0x110000))%N
                        then c4 :: code_points l4
                        else 0xfffd%N :: code_points l1
                    | [] => 0xfffd%N :: code_points l1
                    end
              | [] => 0xfffd%N :: code_points l1
              end
        | [] => [0xfffd%N]
        end
  end.

(** [str.isspace] above ASCII. *)
Definition unicode_space (c : N) : bool :=
  ((c =? 0x85) || (c =? 0xa0) || (c =? 0x1680) || ((0x2000 <=? c) && (c <=? 0x200a))
   || (c =? 0x2028) || (c =? 0x2029) || (c =? 0x202f) || (c =? 0x205f) || (c =? 0x3000))%N.

(** The digits zero of the decimal digits above ASCII (Unicode 14.0);
    each is followed by the digits one to nine. *)
Definition digit_zeros : list N :=
  [0x660; 0x6f0; 0x7c0; 0x966; 0x9e6; 0xa66; 0xae6; 0xb66;
   0xbe6; 0xc66; 0xce6; 0xd66; 0xde6; 0xe50; 0xed0; 0xf20;
   0x1040; 0x1090; 0x17e0; 0x1810; 0x1946; 0x19d0; 0x1a80; 0x1a90;
   0x1b50; 0x1bb0; 0x1c40; 0x1c50; 0xa620; 0xa8d0; 0xa900; 0xa9d0;
   0xa9f0; 0xaa50; 0xabf0; 0xff10; 0x104a0; 0x10d30; 0x11066; 0x110f0;
   0x11136; 0x111d0; 0x112f0; 0x11450; 0x114d0; 0x11650; 0x116c0; 0x11730;
   0x118e0; 0x11950; 0x11c50; 0x11d50; 0x11da0; 0x16a60; 0x16ac0; 0x16b50;
   0x1d7ce; 0x1d7d8; 0x1d7e2; 0x1d7ec; 0x1d7f6; 0x1e140; 0x1e2f0; 0x1e950;
   0x1fbf0]%N.

Fixpoint unicode_decimal (c : N) (zeros : list N) : option N :=
  match zeros with
  | [] => None
  | z :: rest =>
      if ((z <=? c) && (c <? z + 10))%N then Some (c - z)%N else unicode_decimal c rest
  end.

(** What [float] makes of a code point before it reads the string: a
    code point below 127 is kept, a space above it becomes a blank, a
    decimal digit above it the ASCII digit of its value, anything else a
    question mark. *)
Definition to_ascii (c : N) : ascii :=
  if (c <? 127)%N then ascii_of_N c
  else if unicode_space c then " "%char
  else match unicode_decimal c digit_zeros with
       | Some d => ascii_of_N (48 + d)
       | None => "?"%char
       end.

(** The white space [float] strips: tab, line feed, vertical tab, form
    feed, carriage return and blank. *)
Definition is_space (c : ascii) : bool :=
  let n := nat_of_ascii c in
  (((9 <=? n) && (n <=? 13)) || (n =? 32))%nat.

Definition digit_val (c : ascii) : option Z :=
  let n := nat_of_ascii c in
  if ((48 <=? n) && (n <=? 57))%nat then Some (Z.of_nat (n - 48)) else None.

Definition lower (c : ascii) : ascii :=
  let n := nat_of_ascii c in
  if ((65 <=? n) && (n <=? 90))%nat then ascii_of_nat (n + 32) else c.

Fixpoint lstrip (l : list ascii) : list ascii :=
  match l with
  | c :: l' => if is_space c then lstrip l' else l
  | [] => []
  end.

Definition strip (l : list ascii) : list ascii :=
  rev (lstrip (rev (lstrip l))).

(** [digits_rest v k l] continues a [digitpart] whose first digits have
    value [v] and number [k]: digits, each optionally preceded by one
    underscore.  It returns the value, the number of digits and the rest. *)
Fixpoint digits_rest (v : Z) (k : nat) (l : list ascii) : Z * nat * list ascii :=
  match l with
  | c :: l' =>
      match digit_val c with
      | Some d => digits_rest (10 * v + d)%Z (S k) l'
      | None =>
          if Ascii.eqb c "_"
          then match l' with
               | c' :: l'' =>
                   match digit_val c' with
                   | Some d => digits_rest (10 * v + d)%Z (S k) l''
                   | None => (v, k, l)
                   end
               | [] => (v, k, l)
               end
          else (v, k, l)
      end
  | [] => (v, k, l)
  end.

(** A [digitpart] in front of [l], if any, read onto the value [v]. *)
Definition digitpart (v : Z) (l : list ascii) : option (Z * nat * list ascii) :=
  match l with
  | c :: l' =>
      match digit_val c with
      | Some d => Some (digits_rest (10 * v + d)%Z 1 l')
      | None => None
      end
  | [] => None
  end.

Definition split_sign (l : list ascii) : bool * list ascii :=
  match l with
  | c :: l' =>
      if Ascii.eqb c "-" then (true, l')
      else if Ascii.eqb c "+" then (false, l')
      else (false, l)
  | [] => (false, l)
  end.

(** [number ::= [digitpart] "." digitpart | digitpart ["."]]: the mantissa,
    the number of digits after the point and the rest. *)
Definition number (l : list ascii) : option (Z * nat * list ascii) :=
  match digitpart 0 l with
  | Some (v, _, l1) =>
      match l1 with
      | c :: l2 =>
          if Ascii.eqb c "."
          then match digitpart v l2 with
               | Some (v', k, l3) => Some (v', k, l3)
               | None => Some (v, 0, l2)
               end
          else Some (v, 0, l1)
      | [] => Some (v, 0, l1)
      end
  | None =>
      match l with
      | c :: l2 =>
          if Ascii.eqb c "."
          then match digitpart 0 l2 with
               | Some (v', k, l3) => Some (v', k, l3)
               | None => None
               end
          else None
      | [] => None
      end
  end.

(** [exponent ::= ("e" | "E") [sign] digitpart], absent when [l] is empty. *)
Definition exponent (l : list ascii) : option Z :=
  match l with
  | [] => Some 0%Z
  | c :: l1 =>
      if Ascii.eqb (lower c) "e"
      then let '(neg, l2) := split_sign l1 in
           match digitpart 0 l2 with
           | Some (v, _, []) => Some (if neg then (- v)%Z else v)
           | _ => None
           end
      else None
  end.

(** The builtin [float] on a string: surrounding white space is ignored;
    the rest is an optional sign followed by [inf], [infinity], [nan] in
    any case or by a decimal number with an optional exponent.  [None]
    stands for the [ValueError] raised on any other string. *)
Definition float_of_string (s : string) : option float :=
  let chars := to_ascii <$> code_points (list_ascii_of_string s) in
  let '(neg, l) := split_sign (strip chars) in
  let word := string_of_list_ascii (map lower l) in
  if String.eqb word "inf" || String.eqb word "infinity" then Some (S754_infinity neg)
  else if String.eqb word "nan" then Some S754_nan
  else match number l with
       | Some (m, k, l') =>
           match exponent l' with
           | Some e => Some (float_of_decimal neg m (e - Z.of_nat k))
           | None => None
           end
       | None => None
       end.

Definition py_float (s : string) : result float :=
  match float_of_string s with
  | Some x => Return x
  | None => Raise ValueError
  end.

(** *** datetime.date and datetime.datetime *)

Record date : Type := mk_date { d_year : nat; d_month : nat; d_day : nat }.

(** A naive [datetime] (no [tzinfo]). *)
Record datetime : Type := mk_datetime {
  year : nat; month : nat; day : nat;
  hour : nat; minute : nat; second : nat; microsecond : nat }.

(** [datetime.date()]: the calendar date, the time of day dropped. *)
Definition datetime_date (t : datetime) : date :=
  mk_date (year t) (month t) (day t).

(** Dates compare as the triples (year, month, day). *)
Definition date_compare (a b : date) : comparison :=
  match Nat.compare (d_year a) (d_year b) with
  | Eq => match Nat.compare (d_month a) (d_month b) with
          | Eq => Nat.compare (d_day a) (d_day b)
          | c => c
          end
  | c => c
  end.

Definition datetime_compare (a b : datetime) : comparison :=
  match date_compare (datetime_date a) (datetime_date b) with
  | Eq =>
      match Nat.compare (hour a) (hour b) with
      | Eq => match Nat.compare (minute a) (minute b) with
              | Eq => match Nat.compare (second a) (second b) with
                      | Eq => Nat.compare (microsecond a) (microsecond b)
                      | c => c
                      end
              | c => c
              end
      | c => c
      end
  | c => c
  end.

(** Decimal digits of [n], most significant first, least significant
    [k] of them (zeros in front when [n] is short). *)
Fixpoint digits (k n : nat) : string :=
  match k with
  | O => ""
  | S k' => digits k' (n / 10) +:+ String (ascii_of_nat (48 + n mod 10)) ""
  end.

(** [str(t)], that is [t.isoformat(sep=' ')]: seconds always, microseconds
    when they are not zero. *)
Definition datetime_str (t : datetime) : string :=
  digits 4 (year t) +:+ "-" +:+ digits 2 (month t) +:+ "-" +:+ digits 2 (day t)
  +:+ " " +:+ digits 2 (hour t) +:+ ":" +:+ digits 2 (minute t)
  +:+ ":" +:+ digits 2 (second t)
  +:+ (if Nat.eqb (microsecond t) 0 then "" else "." +:+ digits 6 (microsecond t)).

Definition date_str (d : date) : string :=
  digits 4 (d_year d) +:+ "-" +:+ digits 2 (d_month d) +:+ "-" +:+ digits 2 (d_day d).

(** *** Values and the comparison operators of [operator] *)

Inductive pyobj : Type :=
  | PyNone
  | PyBool (b : bool)
  | PyFloat (x : float)
  | PyStr (s : string)
  | PyDate (d : date)
  | PyDatetime (t : datetime).

Definition is_none (v : pyobj) : bool :=
  match v with PyNone => true | _ => false end.

(** The three comparators [create_filters] uses. *)
Inductive binop : Type := op_eq | op_ge | op_le.

Definition comparison_holds (o : binop) (c : comparison) : bool :=
  match o, c with
  | op_eq, Eq => true
  | op_ge, (Eq | Gt) => true
  | op_le, (Eq | Lt) => true
  | _, _ => false
  end.

Definition float_holds (o : binop) (x y : float) : bool :=
  match o with
  | op_eq => float_eq x y
  | op_ge => float_ge x y
  | op_le => float_le x y
  end.

(** [operator.eq(a, b)], [operator.ge(a, b)], [operator.le(a, b)].
    [bool] is a number (0 or 1) and compares with floats; equality of
    values of unrelated types is [False]; ordering them raises
    [TypeError], as does ordering a [date] against a [datetime]. *)
Definition apply_op (o : binop) (a b : pyobj) : result bool :=
  match a, b with
  | PyFloat x, PyFloat y => Return (float_holds o x y)
  | PyFloat x, PyBool y => Return (float_holds o x (float_of_bool y))
  | PyBool x, PyFloat y => Return (float_holds o (float_of_bool x) y)
  | PyBool x, PyBool y => Return (float_holds o (float_of_bool x) (float_of_bool y))
  | PyStr x, PyStr y => Return (comparison_holds o (String.compare x y))
  | PyDate x, PyDate y => Return (comparison_holds o (date_compare x y))
  | PyDatetime x, PyDatetime y => Return (comparison_holds o (datetime_compare x y))
  | PyNone, PyNone => match o with op_eq => Return true | _ => Raise TypeError end
  | _, _ => match o with op_eq => Return false | _ => Raise TypeError end
  end.

(** *** repr of a float *)

Definition same_float (x y : float) : bool :=
  match x, y with
  | S754_finite s m e, S754_finite s' m' e' => Bool.eqb s s' && Pos.eqb m m' && Z.eqb e e'
  | _, _ => false
  end.

Definition decimal (n : Z) : string :=
  NilZero.string_of_uint (N.to_uint (Z.to_N n)).

(** [num / den * 10 ^ x] as a fraction. *)
Definition scale10 (num den x : Z) : Z * Z :=
  if (0 <=? x)%Z then (num * 10 ^ x, den)%Z else (num, den * 10 ^ (- x))%Z.

(** The largest [k], at most [fuel] above the start, with
    [10 ^ k <= num / den]. *)
Fixpoint magnitude (fuel : nat) (num den k : Z) : Z :=
  match fuel with
  | O => k
  | S fuel' =>
      let '(n, d) := scale10 num den (- (k + 1)) in
      if (d <=? n)%Z then magnitude fuel' num den (k + 1)%Z else k
  end.

(** The decimal [D * 10 ^ x] of [p] significant digits that reads back as
    the float [m * 2 ^ e] and is nearest to it, if there is one; [k] is
    the magnitude of the float. *)
Definition shortest_at (m : positive) (e : Z) (num den k : Z) (p : Z) : option (Z * Z) :=
  let x := (p - 1 - k)%Z in
  let '(n, d) := scale10 num den x in
  let lo := (n / d)%Z in
  let r := (n mod d)%Z in
  let back D := same_float (float_of_decimal false D (- x)) (S754_finite false m e) in
  if (r =? 0)%Z then (if back lo then Some (lo, (- x)%Z) else None)
  else
    let hi := (lo + 1)%Z in
    match back lo, back hi with
    | true, true =>
        match (2 * r ?= d)%Z with
        | Lt => Some (lo, (- x)%Z)
        | Gt => Some (hi, (- x)%Z)
        | Eq => Some (if Z.even lo then lo else hi, (- x)%Z)
        end
    | true, false => Some (lo, (- x)%Z)
    | false, true => Some (hi, (- x)%Z)
    | false, false => None
    end.

Fixpoint shortest (fuel : nat) (m : positive) (e : Z) (num den k : Z) (p : Z) : Z * Z :=
  match fuel with
  | O => (0, 0)%Z
  | S fuel' =>
      match shortest_at m e num den k p with
      | Some r => r
      | None => shortest fuel' m e num den k (p + 1)%Z
      end
  end.

Fixpoint drop_zeros (l : list ascii) : list ascii :=
  match l with
  | c :: l' => if Ascii.eqb c "0" then drop_zeros l' else l
  | [] => []
  end.

Definition zeros (n : Z) : string :=
  string_of_list_ascii (replicate (Z.to_nat n) "0"%char).

(** The digits [ds] with the decimal point after the first [decpt] of
    them, in the layout of [repr]: exponent form when [decpt] is below -3
    or above 16, a fractional part always. *)
Definition layout (ds : string) (decpt : Z) : string :=
  let len := Z.of_nat (String.length ds) in
  if ((decpt <=? -4) || (16 <? decpt))%Z then
    let x := (decpt - 1)%Z in
    let mant := match ds with
                | String c "" => String c ""
                | String c rest => String c ("." +:+ rest)
                | "" => ""
                end in
    let xs := decimal (Z.abs x) in
    mant +:+ "e" +:+ (if (x <? 0)%Z then "-" else "+")
         +:+ (if (Z.abs x <? 10)%Z then "0" +:+ xs else xs)
  else if (decpt <=? 0)%Z then "0." +:+ zeros (- decpt) +:+ ds
  else if (len <=? decpt)%Z then ds +:+ zeros (decpt - len) +:+ ".0"
  else substring 0 (Z.to_nat decpt) ds +:+ "."
       +:+ substring (Z.to_nat decpt) (Z.to_nat (len - decpt)) ds.

(** [repr(x)], which is also [str(x)]: the shortest decimal that reads
    back as [x]. *)
Definition float_repr (x : float) : string :=
  match x with
  | S754_nan => "nan"
  | S754_infinity s => if s then "-inf" else "inf"
  | S754_zero s => if s then "-0.0" else "0.0"
  | S754_finite s m e =>
      let num := (if (0 <=? e)%Z then Z.pos m * 2 ^ e else Z.pos m)%Z in
      let den := (if (0 <=? e)%Z then 1 else 2 ^ (- e))%Z in
      let bits := (Z.pos (digits2_pos m) + e)%Z in
      let k := magnitude 3 num den ((bits - 1) * 30103 / 100000 - 1)%Z in
      let '(D, x) := shortest 17 m e num den k 1 in
      let all := decimal D in
      let ds := string_of_list_ascii (rev (drop_zeros (rev (list_ascii_of_string all)))) in
      (if s then "-" else "") +:+ layout ds (Z.of_nat (String.length all) + x)
  end.

(** [str(v)]. *)
Definition py_str (v : pyobj) : string :=
  match v with
  | PyNone => "None"
  | PyBool b => if b then "True" else "False"
  | PyFloat x => float_repr x
  | PyStr s => s
  | PyDate d => date_str d
  | PyDatetime t => datetime_str t
  end.

End Py.

Import Py.

(** ** What the sources import but do not define

    [helpers.py] is not among the sources: [cd_to_datetime] (the parser of
    the calendar-date strings of the close-approach data) and
    [datetime_to_str] (the formatter behind [CloseApproach.time_str]) are
    parameters. *)
Class Env : Type := {
  cd_to_datetime : string -> result datetime;
  datetime_to_str : datetime -> string }.

(** ** models.py *)

Module Models.

Inductive NearEarthObject : Type := mk_neo {
  designation : string;
  name : option string;
  diameter : float;
  hazardous : bool;
  approaches : list CloseApproach }
with CloseApproach : Type := mk_approach {
  _designation : string;
  time : datetime;
  distance : float;
  velocity : float;
  neo : option NearEarthObject }.

(** [info[key]] on a row of [csv.DictReader]. *)
Definition getitem (info : gmap string string) (key : string) : result string :=
  match info !! key with
  | Some v => Return v
  | None => Raise KeyError
  end.

(** [info[i]] on a record of the close-approach data. *)
Definition index (info : list string) (i : nat) : result string :=
  match info !! i with
  | Some v => Return v
  | None => Raise IndexError
  end.

(** [NearEarthObject.__init__(self, **info)]. *)
Definition NearEarthObject_init (info : gmap string string) : result NearEarthObject :=
  pdes ← getitem info "pdes";
  nm ← getitem info "name";
  let name := if String.eqb nm "" then None else Some nm in
  d ← getitem info "diameter";
  diameter ← (if String.eqb d "" then Return nan else py_float d);
  pha ← getitem info "pha";
  let hazardous := if String.eqb pha "Y" then true else false in
  Return (mk_neo pdes name diameter hazardous []).

(** The property [NearEarthObject.fullname]. *)
Definition fullname (self : NearEarthObject) : string :=
  match name self with
  | Some n => designation self +:+ " " +:+ n
  | None => designation self
  end.

(** [CloseApproach.__init__(self, info, neo=None)]. *)
Definition CloseApproach_init `{Env} (info : list string)
    (neo : option NearEarthObject) : result CloseApproach :=
  des ← index info 0;
  cd ← index info 3;
  time ← cd_to_datetime cd;
  d ← index info 4;
  distance ← py_float d;
  v ← index info 7;
  velocity ← py_float v;
  Return (mk_approach des time distance velocity neo).

(** The property [CloseApproach.time_str]. *)
Definition time_str `{Env} (self : CloseApproach) : string :=
  datetime_to_str (time self).

(** [approach.neo.<attribute>]: [AttributeError] while [neo] is [None]. *)
Definition neo_attr {A} (approach : CloseApproach) (attr : NearEarthObject -> A) : result A :=
  match neo approach with
  | Some n => Return (attr n)
  | None => Raise AttributeError
  end.

(** An approach whose [neo] has been resolved. *)
Definition joined (approach : CloseApproach) : Prop := is_Some (neo approach).

End Models.

Import Models.

(** ** filters.py *)

Module Filters.

(** [AttributeFilter] and its five subclasses; they differ in [get] only. *)
Inductive filter_class : Type :=
  | AttributeFilter_base
  | DateFilter
  | DistanceFilter
  | VelocityFilter
  | DiameterFilter
  | HazardousFilter.

(** An instance, as [__init__(self, op, value)] leaves it. *)
Record AttributeFilter : Type := new_filter {
  cls : filter_class;
  op : binop;
  value : pyobj }.

(** The class method [get]. *)
Definition get (c : filter_class) (approach : CloseApproach) : result pyobj :=
  match c with
  | AttributeFilter_base => Raise UnsupportedCriterionError
  | DateFilter => Return (PyDate (datetime_date (time approach)))
  | DistanceFilter => Return (PyFloat (distance approach))
  | VelocityFilter => Return (PyFloat (velocity approach))
  | DiameterFilter => d ← neo_attr approach diameter; Return (PyFloat d)
  | HazardousFilter => h ← neo_attr approach hazardous; Return (PyBool h)
  end.

(** [AttributeFilter.__call__]: [self.op(self.get(approach), self.value)]. *)
Definition call (self : AttributeFilter) (approach : CloseApproach) : result bool :=
  v ← get (cls self) approach;
  apply_op (op self) v (value self).

(** [filters.add(f)] for a freshly built filter [f].  The class defines
    neither [__eq__] nor [__hash__], so the set holds objects by identity
    and a new object is always a new element; the list keeps the elements
    in the order of insertion, which the set itself does not expose. *)
Definition set_add (filters : list AttributeFilter) (f : AttributeFilter) : list AttributeFilter :=
  filters ++ [f].

(** One [if option is not None: filters.add(Class(op, option))] step. *)
Definition add_if_given (c : filter_class) (o : binop) (option : pyobj)
    (filters : list AttributeFilter) : list AttributeFilter :=
  if is_none option then filters else set_add filters (new_filter c o option).

Definition create_filters (date start_date end_date distance_min distance_max
    velocity_min velocity_max diameter_min diameter_max hazardous : pyobj)
    : list AttributeFilter :=
  let filters := [] in
  let filters := add_if_given DateFilter op_eq date filters in
  let filters := add_if_given DateFilter op_ge start_date filters in
  let filters := add_if_given DateFilter op_le end_date filters in
  let filters := add_if_given DistanceFilter op_ge distance_min filters in
  let filters := add_if_given DistanceFilter op_le distance_max filters in
  let filters := add_if_given VelocityFilter op_ge velocity_min filters in
  let filters := add_if_given VelocityFilter op_le velocity_max filters in
  let filters := add_if_given DiameterFilter op_ge diameter_min filters in
  let filters := add_if_given DiameterFilter op_le diameter_max filters in
  let filters := add_if_given HazardousFilter op_eq hazardous filters in
  filters.

(** [itertools.islice(iterator, stop)] on the finite sequence the
    iterator yields: a [stop] that is negative or above [sys.maxsize] is
    refused with [ValueError] when the slice is built, otherwise the first
    [stop] elements are passed on. *)
Definition islice {A} (iterator : list A) (stop : Z) : result (list A) :=
  if ((stop <? 0) || (maxsize <? stop))%Z then Raise ValueError
  else Return (take (Z.to_nat stop) iterator).

(** [limit(iterator, n=None)]; [None] is the Python [None]. *)
Definition limit {A} (iterator : list A) (n : option Z) : result (list A) :=
  match n with
  | None => Return iterator
  | Some k => if (k =? 0)%Z then Return iterator else islice iterator k
  end.

End Filters.

Import Filters.

(** ** The query of the database *)

Module Database.

(** Modelled from the spec: [database.py], which holds [NEODatabase.query],
    is not among the sources.  Section 4.3: "all filters are ANDed - a
    CloseApproach matches the query only if every filter in the set
    evaluates true.  An empty filter set matches every record"; the
    approaches are visited "in their original load order" and the matches
    are produced "in that same order". *)
Fixpoint matches (filters : list AttributeFilter) (approach : CloseApproach) : result bool :=
  match filters with
  | [] => Return true
  | f :: rest =>
      b ← call f approach;
      if b : bool then matches rest approach else Return false
  end.

(** Modelled from the spec: see [matches]. *)
Fixpoint query (filters : list AttributeFilter) (approaches : list CloseApproach)
    : result (list CloseApproach) :=
  match approaches with
  | [] => Return []
  | approach :: rest =>
      b ← matches filters approach;
      found ← query filters rest;
      Return (if b : bool then approach :: found else found)
  end.

End Database.

Import Database.

(** ** extract.py *)

Module Extract.

(** The [for line in data_neo] loop of [load_neos], [list_of_neo] being
    the list built so far. *)
Fixpoint load_neos_loop (data_neo : list (gmap string string))
    (list_of_neo : list NearEarthObject) : result (list NearEarthObject) :=
  match data_neo with
  | [] => Return list_of_neo
  | line :: rest =>
      neo_instance ← NearEarthObject_init line;
      load_neos_loop rest (list_of_neo ++ [neo_instance])
  end.

(** [load_neos], on the rows [csv.DictReader] yields for the file. *)
Definition load_neos (data_neo : list (gmap string string)) : result (list NearEarthObject) :=
  load_neos_loop data_neo [].

Fixpoint load_approaches_loop `{Env} (data : list (list string))
    (list_of_ca : list CloseApproach) : result (list CloseApproach) :=
  match data with
  | [] => Return list_of_ca
  | dictionary :: rest =>
      ca_instance ← CloseApproach_init dictionary None;
      load_approaches_loop rest (list_of_ca ++ [ca_instance])
  end.

(** [load_approaches], on the list under the key [data] of the document
    [json.load] returns. *)
Definition load_approaches `{Env} (data : list (list string)) : result (list CloseApproach) :=
  load_approaches_loop data [].

End Extract.

Import Extract.

(** ** write.py *)

Module Write.

Definition str_or_none (s : option string) : pyobj :=
  match s with
  | Some x => PyStr x
  | None => PyNone
  end.

(** *** CSV *)

(** The rows handed to the file so far, each a list of fields. *)
Definition csv_file : Type := list (list string).

(** What [csv.writer] makes of one value: [None] becomes the empty field,
    a string is taken as it is, anything else goes through [str]. *)
Definition csv_field (v : pyobj) : string :=
  match v with
  | PyNone => ""
  | _ => py_str v
  end.

Definition writerow (row : list pyobj) (outfile : csv_file) : csv_file :=
  (outfile ++ [csv_field <$> row])%list.

Definition fieldnames : list string :=
  ["datetime_utc"; "distance_au"; "velocity_km_s"; "designation"; "name";
   "diameter_km"; "potentially_hazardous"].

(** The list [row] built for one approach. *)
Definition csv_row (approach : CloseApproach) : result (list pyobj) :=
  designation ← neo_attr approach designation;
  name ← neo_attr approach name;
  diameter ← neo_attr approach diameter;
  hazardous ← neo_attr approach hazardous;
  Return [PyDatetime (time approach); PyFloat (distance approach);
          PyFloat (velocity approach); PyStr designation; str_or_none name;
          PyFloat diameter; PyBool hazardous].

(** The [for approach in results] loop; the rows written before an
    exception stay in the file. *)
Fixpoint write_rows (results : list CloseApproach) (outfile : csv_file)
    : csv_file * result unit :=
  match results with
  | [] => (outfile, Return tt)
  | approach :: rest =>
      match csv_row approach with
      | Return row => write_rows rest (writerow row outfile)
      | Raise e => (outfile, Raise e)
      end
  end.

(** [write_to_csv]: the content of the file and the outcome of the call. *)
Definition write_to_csv (results : list CloseApproach) : csv_file * result unit :=
  write_rows results (writerow (PyStr <$> fieldnames) []).

(** *** JSON *)

(** Values with the containers [json.dump] walks through. *)
Inductive pytree : Type :=
  | Leaf (v : pyobj)
  | Dict (items : list (string * pytree))
  | PyList (items : list pytree).

Inductive json : Type :=
  | JNull
  | JBool (b : bool)
  | JNumber (x : float)
  | JString (s : string)
  | JArray (elements : list json)
  | JObject (members : list (string * json)).

(** The document [json.dump] serialises for a value; dates and times are
    not serialisable. *)
Fixpoint json_dump (t : pytree) : result json :=
  match t with
  | Leaf PyNone => Return JNull
  | Leaf (PyBool b) => Return (JBool b)
  | Leaf (PyFloat x) => Return (JNumber x)
  | Leaf (PyStr s) => Return (JString s)
  | Leaf (PyDate _) | Leaf (PyDatetime _) => Raise TypeError
  | Dict items =>
      members ← (fix go (l : list (string * pytree)) : result (list (string * json)) :=
                   match l with
                   | [] => Return []
                   | (k, v) :: l' => j ← json_dump v; r ← go l'; Return ((k, j) :: r)
                   end) items;
      Return (JObject members)
  | PyList items =>
      elements ← (fix go (l : list pytree) : result (list json) :=
                    match l with
                    | [] => Return []
                    | v :: l' => j ← json_dump v; r ← go l'; Return (j :: r)
                    end) items;
      Return (JArray elements)
  end.

(** The dictionary built for one approach. *)
Definition dictionary `{Env} (approach : CloseApproach) : result pytree :=
  designation ← neo_attr approach designation;
  name ← neo_attr approach name;
  diameter ← neo_attr approach diameter;
  hazardous ← neo_attr approach hazardous;
  Return (Dict [("datetime_utc", Leaf (PyStr (time_str approach)));
                ("distance_au", Leaf (PyFloat (distance approach)));
                ("velocity_km_s", Leaf (PyFloat (velocity approach)));
                ("neo", Dict [("designation", Leaf (PyStr designation));
                              ("name", Leaf (str_or_none name));
                              ("diameter_km", Leaf (PyFloat diameter));
                              ("potentially_hazardous", Leaf (PyBool hazardous))])]).

Fixpoint json_loop `{Env} (results : list CloseApproach) (dict_list : list pytree)
    : result (list pytree) :=
  match results with
  | [] => Return dict_list
  | approach :: rest =>
      d ← dictionary approach;
      json_loop rest (dict_list ++ [d])
  end.

(** [write_to_json]: the document written to the file. *)
Definition write_to_json `{Env} (results : list CloseApproach) : result json :=
  dict_list ← json_loop results [];
  json_dump (PyList dict_list).

End Write.

Import Write.

(** ** What the specification describes, in its own words *)

Module Expected.

(** "one filter per non-null option ... Options not supplied contribute no
    filter": the filters an option stands for. *)
Definition filter_of_option (c : filter_class) (o : binop) (option : pyobj)
    : list AttributeFilter :=
  match option with
  | PyNone => []
  | _ => [new_filter c o option]
  end.

(** The number of filters an option stands for. *)
Definition given (option : pyobj) : nat :=
  match option with
  | PyNone => 0
  | _ => 1
  end.

(** "the approaches whose neo.hazardous is False": the hazard flag of the
    NEO of an approach (no NEO, no hazard). *)
Definition approach_hazardous (approach : CloseApproach) : bool :=
  match neo approach with
  | Some n => hazardous n
  | None => false
  end.

(** "exactly one NearEarthObject exists per designation": two objects at
    different places of the collection have different designations. *)
Definition unique_designations (neos : list NearEarthObject) : Prop :=
  ∀ i j a b, i ≠ j → neos !! i = Some a → neos !! j = Some b →
             designation a ≠ designation b.







(** "one per entry, in source order": the objects built from the entries
    one after the other, or the first exception. *)
Fixpoint collect {A B} (f : A → result B) (entries : list A) : result (list B) :=
  match entries with
  | [] => Return []
  | x :: rest => y ← f x; ys ← collect f rest; Return (y :: ys)
  end.

(** "datetime_utc as the raw (non-truncated) timestamp's canonical string
    form, other fields as their native values (name emitted as empty
    rather than a null marker)": the fields of the CSV row of an approach
    whose NEO is [n]. *)
Definition expected_csv_row (approach : CloseApproach) (n : NearEarthObject) : list string :=
  [datetime_str (time approach);
   float_repr (distance approach);
   float_repr (velocity approach);
   designation n;
   match name n with Some s => s | None => "" end;
   float_repr (diameter n);
   if hazardous n then "True" else "False"].

Definition expected_csv_line (approach : CloseApproach) : list string :=
  match neo approach with
  | Some n => expected_csv_row approach n
  | None => []
  end.

(** The JSON object of an approach whose NEO is [n]: the time through
    [datetime_to_str], a missing name as [null]. *)
Definition expected_json_object `{Env} (approach : CloseApproach) (n : NearEarthObject) : json :=
  JObject [("datetime_utc", JString (datetime_to_str (time approach)));
           ("distance_au", JNumber (distance approach));
           ("velocity_km_s", JNumber (velocity approach));
           ("neo", JObject [("designation", JString (designation n));
                            ("name", match name n with
                                     | Some s => JString s
                                     | None => JNull
                                     end);
                            ("diameter_km", JNumber (diameter n));
                            ("potentially_hazardous", JBool (hazardous n))])].

Definition expected_json_entry `{Env} (approach : CloseApproach) : json :=
  match neo approach with
  | Some n => expected_json_object approach n
  | None => JNull
  end.

End Expected.

Import Expected.

(** ** A sample environment

    An instance of [Env] on which the definitions can be run: calendar
    dates are read in the layout [2020-Jan-01 12:30] of the close-approach
    data and printed as [2020-01-01 12:30]. *)

Module Sample.

Definition months : list string :=
  ["Jan"; "Feb"; "Mar"; "Apr"; "May"; "Jun"; "Jul"; "Aug"; "Sep"; "Oct"; "Nov"; "Dec"].

Fixpoint month_number (abbr : string) (l : list string) (i : nat) : option nat :=
  match l with
  | [] => None
  | m :: l' => if String.eqb abbr m then Some i else month_number abbr l' (S i)
  end.

Definition number_of (l : list ascii) : option nat :=
  match digitpart 0 l with
  | Some (v, _, []) => Some (Z.to_nat v)
  | _ => None
  end.

Definition read_calendar_date (s : string) : result datetime :=
  match list_ascii_of_string s with
  | [y1; y2; y3; y4; _; m1; m2; m3; _; d1; d2; _; h1; h2; _; n1; n2] =>
      match number_of [y1; y2; y3; y4], month_number (string_of_list_ascii [m1; m2; m3]) months 1,
            number_of [d1; d2], number_of [h1; h2], number_of [n1; n2] with
      | Some y, Some m, Some d, Some h, Some n => Return (mk_datetime y m d h n 0 0)
      | _, _, _, _, _ => Raise ValueError
      end
  | _ => Raise ValueError
  end.

Definition print_minutes (t : datetime) : string :=
  digits 4 (year t) +:+ "-" +:+ digits 2 (month t) +:+ "-" +:+ digits 2 (day t)
  +:+ " " +:+ digits 2 (hour t) +:+ ":" +:+ digits 2 (minute t).

Definition env : Env :=
  {| cd_to_datetime := read_calendar_date; datetime_to_str := print_minutes |}.

Definition row (pdes name diameter pha : string) : gmap string string :=
  <["pdes" := pdes]> (<["name" := name]> (<["diameter" := diameter]> (<["pha" := pha]> ∅))).

Definition eros : NearEarthObject :=
  mk_neo "433" (Some "Eros") (S754_finite false 4740038607807447 (-48)) false [].

Definition apophis_2029 : NearEarthObject :=
  mk_neo "99942" None S754_nan true [].

Definition t0 : datetime := mk_datetime 2020 1 1 12 30 0 0.

Definition approach_of (n : option NearEarthObject) : CloseApproach :=
  mk_approach "433" t0 (S754_finite false 7205759403792794 (-56))
    (S754_finite false 5629499534213120 (-49)) n.

End Sample.

(** ** Properties *)

Section FiltersProperties.

Lemma add_if_given_spec c o v filters :
  add_if_given c o v filters = (filters ++ filter_of_option c o v)%list.
Proof.
  unfold add_if_given, set_add.
  destruct v; simpl; auto using app_nil_r.
Qed.

Lemma filter_of_option_sublist c o v :
  filter_of_option c o v `sublist_of` [new_filter c o v].
Proof. destruct v; simpl; repeat constructor. Qed.

Lemma length_filter_of_option c o v : length (filter_of_option c o v) = given v.
Proof. by destruct v. Qed.

(** C4.  Calling a filter of the base class [AttributeFilter], whose
    [get] no subclass has overridden, raises [UnsupportedCriterionError]
    for every comparator, reference value and close approach; it never
    returns [True] or [False]. *)
Theorem base_filter_call_raises (o : binop) (v : pyobj) (approach : CloseApproach) :
  call (new_filter AttributeFilter_base o v) approach = Raise UnsupportedCriterionError
  ∧ ∀ b : bool, call (new_filter AttributeFilter_base o v) approach ≠ Return b.
Proof.
  split; [reflexivity | intros b Hb; discriminate Hb].
Qed.

(** C1.  [create_filters] returns one filter per option that is not
    [None] and none for an omitted one, each with the class and the
    comparator fixed by the option's name; with no option given the
    collection is empty.  A [DateFilter] compares the calendar date of the
    approach, a [DistanceFilter] its distance, a [VelocityFilter] its
    velocity, a [DiameterFilter] the diameter of its NEO and a
    [HazardousFilter] the hazard flag of its NEO. *)
Theorem create_filters_one_per_option
    (date start_date end_date distance_min distance_max
     velocity_min velocity_max diameter_min diameter_max hazardous : pyobj) :
  let filters := create_filters date start_date end_date distance_min distance_max
                   velocity_min velocity_max diameter_min diameter_max hazardous in
  filters =
    (filter_of_option DateFilter op_eq date
     ++ filter_of_option DateFilter op_ge start_date
     ++ filter_of_option DateFilter op_le end_date
     ++ filter_of_option DistanceFilter op_ge distance_min
     ++ filter_of_option DistanceFilter op_le distance_max
     ++ filter_of_option VelocityFilter op_ge velocity_min
     ++ filter_of_option VelocityFilter op_le velocity_max
     ++ filter_of_option DiameterFilter op_ge diameter_min
     ++ filter_of_option DiameterFilter op_le diameter_max
     ++ filter_of_option HazardousFilter op_eq hazardous)%list
  ∧ length filters =
      given date + given start_date + given end_date
      + given distance_min + given distance_max
      + given velocity_min + given velocity_max
      + given diameter_min + given diameter_max + given hazardous
  ∧ NoDup filters
  ∧ create_filters PyNone PyNone PyNone PyNone PyNone PyNone PyNone PyNone PyNone PyNone = []
  ∧ (∀ o v approach,
       call (new_filter DateFilter o v) approach
       = apply_op o (PyDate (datetime_date (time approach))) v)
  ∧ (∀ o v approach,
       call (new_filter DistanceFilter o v) approach
       = apply_op o (PyFloat (distance approach)) v)
  ∧ (∀ o v approach,
       call (new_filter VelocityFilter o v) approach
       = apply_op o (PyFloat (velocity approach)) v)
  ∧ (∀ o v des t d vel n,
       call (new_filter DiameterFilter o v) (mk_approach des t d vel (Some n))
       = apply_op o (PyFloat (diameter n)) v)
  ∧ (∀ o v des t d vel n,
       call (new_filter HazardousFilter o v) (mk_approach des t d vel (Some n))
       = apply_op o (PyBool (Models.hazardous n)) v).
Proof.
  intros filters.
  assert (Hlist : filters =
    (filter_of_option DateFilter op_eq date
     ++ filter_of_option DateFilter op_ge start_date
     ++ filter_of_option DateFilter op_le end_date
     ++ filter_of_option DistanceFilter op_ge distance_min
     ++ filter_of_option DistanceFilter op_le distance_max
     ++ filter_of_option VelocityFilter op_ge velocity_min
     ++ filter_of_option VelocityFilter op_le velocity_max
     ++ filter_of_option DiameterFilter op_ge diameter_min
     ++ filter_of_option DiameterFilter op_le diameter_max
     ++ filter_of_option HazardousFilter op_eq hazardous)%list).
  { subst filters. unfold create_filters.
    rewrite !add_if_given_spec. simpl. by rewrite <- !app_assoc. }
  split; [exact Hlist |].
  split.
  { rewrite Hlist, !length_app, !length_filter_of_option. lia. }
  split.
  { rewrite Hlist. clear Hlist filters.
    eapply (sublist_NoDup _
      [new_filter DateFilter op_eq date; new_filter DateFilter op_ge start_date;
       new_filter DateFilter op_le end_date;
       new_filter DistanceFilter op_ge distance_min;
       new_filter DistanceFilter op_le distance_max;
       new_filter VelocityFilter op_ge velocity_min;
       new_filter VelocityFilter op_le velocity_max;
       new_filter DiameterFilter op_ge diameter_min;
       new_filter DiameterFilter op_le diameter_max;
       new_filter HazardousFilter op_eq hazardous]).
    - apply (NoDup_fmap_1 (λ f, (cls f, op f))). simpl.
      repeat (constructor; [rewrite ?not_elem_of_cons, elem_of_nil; intuition discriminate |]).
      constructor.
    - repeat (apply (sublist_app _ [_]); [apply filter_of_option_sublist |]).
      apply filter_of_option_sublist. }
  repeat split.
Qed.

(** C2, as the code has it.  With [None] or [0] as the cap, [limit]
    returns the sequence it was given; with a positive cap [n] that is not
    above [sys.maxsize] it yields the first [min n (length iterator)]
    elements, in order, hence at most [n]; with a cap above [sys.maxsize]
    it raises [ValueError]. *)
Theorem limit_caps_sequence {A} (iterator : list A) (n : Z) :
  (0 < n)%Z → (n <= maxsize)%Z →
  limit iterator None = Return iterator
  ∧ limit iterator (Some 0%Z) = Return iterator
  ∧ (∃ out, limit iterator (Some n) = Return out
      ∧ out = take (Z.to_nat n) iterator
      ∧ length out = Nat.min (Z.to_nat n) (length iterator)
      ∧ (Z.of_nat (length out) <= n)%Z
      ∧ out `prefix_of` iterator
      ∧ ∀ i, out !! i = if decide (i < Z.to_nat n) then iterator !! i else None)
  ∧ ∀ k, (maxsize < k)%Z → limit iterator (Some k) = Raise ValueError.
Proof.
  intros Hn Hmax. split; [reflexivity |]. split; [reflexivity |]. split.
  - exists (take (Z.to_nat n) iterator).
    unfold limit, islice.
    destruct (Z.eqb_spec n 0) as [-> | _]; [lia |].
    destruct (Z.ltb_spec n 0) as [Hneg | _]; [lia |].
    destruct (Z.ltb_spec maxsize n) as [Hbig | _]; [lia |]. simpl.
    split; [reflexivity |]. split; [reflexivity |].
    rewrite length_take.
    split; [reflexivity |]. split; [lia |].
    split; [apply prefix_take |].
    intros i. case_decide.
    + by apply lookup_take_lt.
    + apply lookup_take_ge. lia.
  - intros k Hk. unfold limit, islice.
    assert (0 < maxsize)%Z by (unfold maxsize; lia).
    destruct (Z.eqb_spec k 0) as [-> | _]; [lia |].
    destruct (Z.ltb_spec maxsize k) as [_ | Hsmall]; [| lia].
    by rewrite orb_true_r.
Qed.

Lemma limit_caps_sequence_witness :
  (0 < 2)%Z ∧ (2 <= maxsize)%Z ∧ limit [1; 2; 3; 4; 5] (Some 2%Z) = Return [1; 2].
Proof.
  split; [lia |]. split; [by vm_compute |].
  destruct (limit_caps_sequence [1; 2; 3; 4; 5] 2 ltac:(lia) ltac:(by vm_compute))
    as (_ & _ & (out & -> & -> & _) & _).
  reflexivity.
Defined.

(** C2, as stated, fails: the cap [2 ^ 63] is a positive integer, and
    [limit] raises [ValueError] instead of yielding the three elements. *)
Lemma limit_cap_above_maxsize :
  (0 < 2 ^ 63)%Z
  ∧ limit [1; 2; 3] (Some (2 ^ 63)%Z) = Raise ValueError
  ∧ limit [1; 2; 3] (Some (2 ^ 63)%Z) ≠ Return (take (Z.to_nat (2 ^ 63)) [1; 2; 3]).
Proof.
  split; [lia |].
  assert (H : limit [1; 2; 3] (Some (2 ^ 63)%Z) = Raise ValueError) by (vm_compute; reflexivity).
  split; [exact H | rewrite H; discriminate].
Qed.

(** C9.  With a negative cap [limit] raises [ValueError], whatever the
    sequence: the cap is neither [None] nor [0], and [islice] refuses a
    negative stop. *)
Theorem limit_negative_raises {A} (iterator : list A) (n : Z) :
  (n < 0)%Z → limit iterator (Some n) = Raise ValueError.
Proof.
  intros Hn. unfold limit, islice.
  destruct (Z.eqb_spec n 0) as [-> | _]; [lia |].
  destruct (Z.ltb_spec n 0) as [_ | Hpos]; [reflexivity | lia].
Qed.

Lemma limit_negative_raises_witness :
  (-1 < 0)%Z ∧ limit [1; 2; 3] (Some (-1)%Z) = Raise ValueError.
Proof. split; [lia | apply limit_negative_raises; lia]. Defined.

Lemma matches_hazardous (b : bool) (approach : CloseApproach) (n : NearEarthObject) :
  neo approach = Some n →
  call (new_filter HazardousFilter op_eq (PyBool b)) approach
  = Return (Bool.eqb (hazardous n) b).
Proof.
  intros Hn. unfold call, get, neo_attr. simpl. rewrite Hn. simpl.
  by destruct (hazardous n), b.
Qed.

Lemma query_no_filter (approaches : list CloseApproach) :
  query [] approaches = Return approaches.
Proof.
  induction approaches as [| a l IH]; [reflexivity |].
  simpl. rewrite IH. reflexivity.
Qed.

Lemma query_not_hazardous (approaches : list CloseApproach) :
  Forall joined approaches →
  query [new_filter HazardousFilter op_eq (PyBool false)] approaches
  = Return (List.filter (λ a, negb (approach_hazardous a)) approaches).
Proof.
  induction 1 as [| a l [n Hn] _ IH]; [reflexivity |].
  cbn [query matches]. rewrite (matches_hazardous false a n Hn).
  cbn. rewrite IH. cbn.
  assert (Ha : approach_hazardous a = hazardous n)
    by (unfold approach_hazardous; by rewrite Hn).
  rewrite Ha. by destruct (hazardous n).
Qed.

(** C3.  On a joined catalog with a hazardous and a non-hazardous
    approach, [create_filters(hazardous=False)] is one [HazardousFilter]
    that accepts exactly the approaches whose NEO is not hazardous, so the
    query returns those in catalog order; [create_filters()] is empty and
    the query returns the whole catalog; the two results differ. *)
Theorem hazardous_false_differs_from_unspecified (catalog : list CloseApproach) :
  Forall joined catalog →
  (∃ a, a ∈ catalog ∧ approach_hazardous a = true) →
  (∃ a, a ∈ catalog ∧ approach_hazardous a = false) →
  let f := new_filter HazardousFilter op_eq (PyBool false) in
  create_filters PyNone PyNone PyNone PyNone PyNone PyNone PyNone PyNone PyNone
    (PyBool false) = [f]
  ∧ (∀ a, a ∈ catalog → call f a = Return (negb (approach_hazardous a)))
  ∧ query [f] catalog = Return (List.filter (λ a, negb (approach_hazardous a)) catalog)
  ∧ create_filters PyNone PyNone PyNone PyNone PyNone PyNone PyNone PyNone PyNone
      PyNone = []
  ∧ query [] catalog = Return catalog
  ∧ query [f] catalog ≠ query [] catalog.
Proof.
  intros Hjoined (h & Hh & Hhaz) _ f.
  split; [reflexivity |].
  split.
  { intros a Ha. rewrite Forall_forall in Hjoined.
    destruct (Hjoined a Ha) as [n Hn].
    subst f. rewrite (matches_hazardous false a n Hn).
    unfold approach_hazardous. rewrite Hn. by destruct (hazardous n). }
  split; [by apply query_not_hazardous |].
  split; [reflexivity |].
  split; [apply query_no_filter |].
  subst f. rewrite query_not_hazardous, query_no_filter by done.
  intros Heq. injection Heq as Heq.
  apply list_elem_of_In in Hh. rewrite <- Heq in Hh.
  apply filter_In in Hh as [_ Hh]. rewrite Hhaz in Hh. discriminate.
Qed.

Lemma hazardous_false_differs_from_unspecified_witness :
  let catalog := [Sample.approach_of (Some Sample.eros);
                  Sample.approach_of (Some Sample.apophis_2029)] in
  query (create_filters PyNone PyNone PyNone PyNone PyNone PyNone PyNone PyNone PyNone
           (PyBool false)) catalog
  = Return [Sample.approach_of (Some Sample.eros)]
  ∧ query (create_filters PyNone PyNone PyNone PyNone PyNone PyNone PyNone PyNone PyNone
             PyNone) catalog
    = Return catalog.
Proof.
  intros catalog.
  assert (Hjoined : Forall joined catalog)
    by (repeat constructor; eexists; reflexivity).
  assert (Hhaz : ∃ a, a ∈ catalog ∧ approach_hazardous a = true)
    by (exists (Sample.approach_of (Some Sample.apophis_2029));
        split; [repeat constructor | reflexivity]).
  assert (Hnot : ∃ a, a ∈ catalog ∧ approach_hazardous a = false)
    by (exists (Sample.approach_of (Some Sample.eros));
        split; [repeat constructor | reflexivity]).
  destruct (hazardous_false_differs_from_unspecified catalog Hjoined Hhaz Hnot)
    as (-> & _ & -> & -> & -> & _).
  split; reflexivity.
Defined.

End FiltersProperties.

Section LoaderProperties.

Lemma bind_Return {A B} (m : result A) (f : A → result B) (b : B) :
  m ≫= f = Return b → ∃ a, m = Return a ∧ f a = Return b.
Proof. destruct m as [a | e]; [eauto | discriminate]. Qed.

Lemma getitem_Return info key v : getitem info key = Return v → info !! key = Some v.
Proof. unfold getitem. destruct (info !! key); congruence. Qed.

(** What a successful construction read and built. *)
Lemma NearEarthObject_init_Return info n :
  NearEarthObject_init info = Return n →
  ∃ pdes nm d pha x,
    info !! "pdes" = Some pdes ∧ info !! "name" = Some nm
    ∧ info !! "diameter" = Some d ∧ info !! "pha" = Some pha
    ∧ (if String.eqb d "" then Return nan else py_float d) = Return x
    ∧ n = mk_neo pdes (if String.eqb nm "" then None else Some nm) x
            (if String.eqb pha "Y" then true else false) [].
Proof.
  unfold NearEarthObject_init. intros H.
  apply bind_Return in H as (pdes & Hp & H).
  apply bind_Return in H as (nm & Hn & H).
  apply bind_Return in H as (d & Hd & H).
  apply bind_Return in H as (x & Hx & H).
  apply bind_Return in H as (pha & Hh & H).
  injection H as <-.
  exists pdes, nm, d, pha, x.
  auto 10 using getitem_Return.
Qed.

(** C7.  A row with an empty name gives an object whose name is [None]
    and whose full name is the designation alone; a row with a name gives
    an object that keeps it, the full name being the designation, a space
    and the name. *)
Theorem empty_name_is_none (info : gmap string string) (n : NearEarthObject)
    (pdes nm : string) :
  NearEarthObject_init info = Return n →
  info !! "pdes" = Some pdes →
  info !! "name" = Some nm →
  designation n = pdes
  ∧ (nm = "" → name n = None ∧ fullname n = pdes)
  ∧ (nm ≠ "" → name n = Some nm ∧ fullname n = pdes +:+ " " +:+ nm).
Proof.
  intros Hinit Hp Hn.
  apply NearEarthObject_init_Return in Hinit
    as (pdes' & nm' & d & pha & x & Hp' & Hn' & _ & _ & _ & ->).
  rewrite Hp in Hp'. rewrite Hn in Hn'.
  injection Hp' as <-. injection Hn' as <-.
  unfold fullname. simpl.
  split; [reflexivity |].
  destruct (String.eqb_spec nm ""); split; intros; try done.
Qed.

Lemma empty_name_is_none_witness :
  let unnamed := Sample.row "99942" "" "" "Y" in
  let named := Sample.row "433" "Eros" "16.84" "N" in
  (∃ n, NearEarthObject_init unnamed = Return n ∧ name n = None ∧ fullname n = "99942")
  ∧ (∃ n, NearEarthObject_init named = Return n
          ∧ name n = Some "Eros" ∧ fullname n = "433 Eros").
Proof.
  intros unnamed named.
  split.
  - exists Sample.apophis_2029.
    assert (Hinit : NearEarthObject_init unnamed = Return Sample.apophis_2029)
      by (vm_compute; reflexivity).
    split; [exact Hinit |].
    apply (empty_name_is_none unnamed Sample.apophis_2029 "99942" "" Hinit);
      vm_compute; reflexivity.
  - exists Sample.eros.
    assert (Hinit : NearEarthObject_init named = Return Sample.eros)
      by (vm_compute; reflexivity).
    split; [exact Hinit |].
    apply (empty_name_is_none named Sample.eros "433" "Eros" Hinit);
      [vm_compute; reflexivity | vm_compute; reflexivity | discriminate].
Defined.

Lemma collect_Return {A B} (f : A → result B) entries ys :
  collect f entries = Return ys ↔ Forall2 (λ x y, f x = Return y) entries ys.
Proof.
  revert ys. induction entries as [| x rest IH]; intros ys; simpl.
  - split.
    + intros [= <-]. constructor.
    + intros H. inversion H. reflexivity.
  - split.
    + intros H. apply bind_Return in H as (y & Hy & H).
      apply bind_Return in H as (ys' & Hys & H). injection H as <-.
      constructor; [done | by apply IH].
    + intros H. inversion H as [| ? y ? ys' Hy Hys]; subst.
      rewrite Hy. simpl. apply IH in Hys. rewrite Hys. reflexivity.
Qed.

Lemma collect_raises {A B} (f : A → result B) entries x :
  x ∈ entries → raises (f x) → raises (collect f entries).
Proof.
  intros Hx [e He]. unfold raises.
  induction entries as [| z rest IH]; [by apply elem_of_nil in Hx |].
  simpl. apply elem_of_cons in Hx as [<- | Hx].
  - rewrite He. by exists e.
  - destruct (f z) as [y | e']; [| by exists e'].
    destruct (IH Hx) as [e' ->]. by exists e'.
Qed.


Lemma load_neos_loop_collect data_neo list_of_neo :
  load_neos_loop data_neo list_of_neo
  = (neos ← collect NearEarthObject_init data_neo; Return (list_of_neo ++ neos)%list).
Proof.
  revert list_of_neo. induction data_neo as [| line rest IH]; intros acc; simpl.
  - by rewrite app_nil_r.
  - destruct (NearEarthObject_init line) as [n | e]; [| reflexivity].
    simpl. rewrite IH.
    destruct (collect NearEarthObject_init rest) as [ns | e]; [| reflexivity].
    simpl. by rewrite <- app_assoc.
Qed.

Lemma load_neos_collect data_neo :
  load_neos data_neo = collect NearEarthObject_init data_neo.
Proof.
  unfold load_neos. rewrite load_neos_loop_collect.
  by destruct (collect NearEarthObject_init data_neo).
Qed.

Lemma load_approaches_loop_collect `{Env} data list_of_ca :
  load_approaches_loop data list_of_ca
  = (cas ← collect (λ info, CloseApproach_init info None) data;
     Return (list_of_ca ++ cas)%list).
Proof.
  revert list_of_ca. induction data as [| info rest IH]; intros acc; simpl.
  - by rewrite app_nil_r.
  - destruct (CloseApproach_init info None) as [c | e]; [| reflexivity].
    simpl. rewrite IH.
    destruct (collect _ rest) as [cs | e]; [| reflexivity].
    simpl. by rewrite <- app_assoc.
Qed.

Lemma load_approaches_collect `{Env} data :
  load_approaches data = collect (λ info, CloseApproach_init info None) data.
Proof.
  unfold load_approaches. rewrite load_approaches_loop_collect.
  by destruct (collect _ data).
Qed.

Lemma unique_designations_NoDup neos :
  unique_designations neos ↔ NoDup (designation <$> neos).
Proof.
  rewrite NoDup_alt. unfold unique_designations. split.
  - intros Hu i j x Hi Hj.
    rewrite list_lookup_fmap in Hi, Hj.
    destruct (neos !! i) as [a |] eqn:Ha; [| discriminate].
    destruct (neos !! j) as [b |] eqn:Hb; [| discriminate].
    simpl in *. destruct (decide (i = j)) as [| Hne]; [done |].
    exfalso. apply (Hu i j a b Hne Ha Hb). congruence.
  - intros Hn i j a b Hne Ha Hb Heq. apply Hne.
    apply (Hn i j (designation a)); rewrite list_lookup_fmap.
    + by rewrite Ha.
    + rewrite Hb. simpl. by rewrite Heq.
Qed.

(** C5, as the code has it.  [load_neos] builds one object per row, in
    row order, whose designation is the [pdes] of the row; it drops no
    row, so the designations of the objects are pairwise different exactly
    when the [pdes] values of the rows are. *)
Theorem load_neos_one_per_row (data_neo : list (gmap string string))
    (neos : list NearEarthObject) :
  load_neos data_neo = Return neos →
  length neos = length data_neo
  ∧ Forall2 (λ line n, line !! "pdes" = Some (designation n)) data_neo neos
  ∧ (unique_designations neos ↔ NoDup ((λ line, line !! "pdes") <$> data_neo)).
Proof.
  rewrite load_neos_collect, collect_Return. intros Hall.
  assert (Hpdes : Forall2 (λ line n, line !! "pdes" = Some (designation n)) data_neo neos).
  { eapply Forall2_impl; [exact Hall |]. intros line n Hinit. simpl in Hinit.
    apply NearEarthObject_init_Return in Hinit
      as (pdes & nm & d & pha & x & Hp & _ & _ & _ & _ & ->). exact Hp. }
  split; [symmetry; by eapply Forall2_length |].
  split; [exact Hpdes |].
  rewrite unique_designations_NoDup.
  assert (Heq : (λ line, line !! "pdes") <$> data_neo = Some <$> (designation <$> neos)).
  { clear Hall. induction Hpdes as [| line n ? ? Hl _ IH]; [reflexivity |].
    rewrite !fmap_cons. by rewrite Hl, IH. }
  rewrite Heq. split.
  - intros Hn. apply NoDup_fmap_2; [| exact Hn]. intros ? ?. congruence.
  - apply NoDup_fmap_1.
Qed.

Lemma load_neos_one_per_row_witness :
  let data_neo := [Sample.row "433" "Eros" "16.84" "N"; Sample.row "99942" "" "" "Y"] in
  load_neos data_neo = Return [Sample.eros; Sample.apophis_2029]
  ∧ unique_designations [Sample.eros; Sample.apophis_2029].
Proof.
  intros data_neo.
  assert (Hload : load_neos data_neo = Return [Sample.eros; Sample.apophis_2029])
    by (vm_compute; reflexivity).
  split; [exact Hload |].
  apply (load_neos_one_per_row data_neo _ Hload).
  vm_compute. repeat constructor; rewrite ?not_elem_of_cons, ?elem_of_nil; intuition discriminate.
Defined.

(** C5, as stated, fails: a file with two rows of the same [pdes] loads
    into two objects of the same designation. *)
Lemma load_neos_keeps_duplicates :
  let data_neo := [Sample.row "433" "Eros" "16.84" "N"; Sample.row "433" "" "" "Y"] in
  ∃ neos, load_neos data_neo = Return neos ∧ ¬ unique_designations neos.
Proof.
  intros data_neo.
  exists [Sample.eros; mk_neo "433" None S754_nan true []].
  split; [vm_compute; reflexivity |].
  intros Hu. by apply (Hu 0 1 _ _ ltac:(lia) eq_refl eq_refl).
Qed.













End LoaderProperties.

Section WriterProperties.

Lemma csv_row_joined (approach : CloseApproach) (n : NearEarthObject) :
  neo approach = Some n →
  ∃ row, csv_row approach = Return row ∧ csv_field <$> row = expected_csv_row approach n.
Proof.
  intros Hn. unfold csv_row, neo_attr. rewrite Hn. simpl.
  eexists. split; [reflexivity |].
  unfold expected_csv_row. simpl. by destruct (name n), (hazardous n).
Qed.

Lemma write_rows_joined (results : list CloseApproach) (outfile : csv_file) :
  Forall joined results →
  write_rows results outfile = ((outfile ++ (expected_csv_line <$> results))%list, Return tt).
Proof.
  intros Hj. revert outfile.
  induction Hj as [| a l [n Hn] _ IH]; intros outfile; simpl.
  - by rewrite app_nil_r.
  - destruct (csv_row_joined a n Hn) as (row & -> & Hrow).
    rewrite IH. unfold writerow. rewrite Hrow, <- app_assoc. simpl.
    unfold expected_csv_line at 2. by rewrite Hn.
Qed.

(** C8.  For joined results [write_to_csv] succeeds and the file holds
    the header row, then one row per approach in the order of the
    results: the time as [str] prints it (seconds included), distance and
    velocity, the designation of the NEO, its name or the empty field
    when it has none, its diameter and its hazard flag. *)
Theorem write_to_csv_rows (results : list CloseApproach) :
  Forall joined results →
  write_to_csv results =
    (["datetime_utc"; "distance_au"; "velocity_km_s"; "designation"; "name";
      "diameter_km"; "potentially_hazardous"]
     :: (expected_csv_line <$> results), Return tt)
  ∧ (∀ i a n, results !! i = Some a → neo a = Some n →
       (fst (write_to_csv results)) !! (S i) = Some (expected_csv_row a n))
  ∧ (∀ a n, neo a = Some n → name n = None → expected_csv_row a n !! 4 = Some "").
Proof.
  intros Hj.
  assert (Hw : write_to_csv results =
    (["datetime_utc"; "distance_au"; "velocity_km_s"; "designation"; "name";
      "diameter_km"; "potentially_hazardous"]
     :: (expected_csv_line <$> results), Return tt)).
  { unfold write_to_csv. by rewrite write_rows_joined. }
  split; [exact Hw |]. split.
  - intros i a n Hi Hn. rewrite Hw. simpl.
    rewrite list_lookup_fmap, Hi. simpl.
    unfold expected_csv_line. by rewrite Hn.
  - intros a n _ Hname. unfold expected_csv_row. by rewrite Hname.
Qed.

Lemma write_to_csv_rows_witness :
  write_to_csv [Sample.approach_of (Some Sample.eros);
                Sample.approach_of (Some Sample.apophis_2029)]
  = ([["datetime_utc"; "distance_au"; "velocity_km_s"; "designation"; "name";
       "diameter_km"; "potentially_hazardous"];
      ["2020-01-01 12:30:00"; "0.1"; "10.0"; "433"; "Eros"; "16.84"; "False"];
      ["2020-01-01 12:30:00"; "0.1"; "10.0"; "99942"; ""; "nan"; "True"]],
     Return tt).
Proof.
  destruct (write_to_csv_rows
              [Sample.approach_of (Some Sample.eros);
               Sample.approach_of (Some Sample.apophis_2029)]) as [-> _].
  - repeat constructor; eexists; reflexivity.
  - vm_compute. reflexivity.
Defined.

Lemma json_dump_list (items : list pytree) (elements : list json) :
  Forall2 (λ v j, json_dump v = Return j) items elements →
  json_dump (PyList items) = Return (JArray elements).
Proof.
  induction 1 as [| v j l js Hv _ IH]; [reflexivity |].
  simpl in *. rewrite Hv. simpl.
  match type of IH with
  | ?m ≫= _ = _ => destruct m as [r | e]; [| discriminate]
  end.
  simpl in *. by injection IH as ->.
Qed.

Lemma dictionary_joined `{Env} (approach : CloseApproach) (n : NearEarthObject) :
  neo approach = Some n →
  ∃ d, dictionary approach = Return d
       ∧ json_dump d = Return (expected_json_object approach n).
Proof.
  intros Hn. unfold dictionary, neo_attr. rewrite Hn. simpl.
  eexists. split; [reflexivity |].
  unfold expected_json_object, time_str. simpl. by destruct (name n).
Qed.

Lemma json_loop_joined `{Env} (results : list CloseApproach) (dict_list : list pytree) :
  Forall joined results →
  ∃ ds, json_loop results dict_list = Return (dict_list ++ ds)%list
        ∧ Forall2 (λ v j, json_dump v = Return j) ds (expected_json_entry <$> results).
Proof.
  intros Hj. revert dict_list.
  induction Hj as [| a l [n Hn] _ IH]; intros dict_list; simpl.
  - exists []. rewrite app_nil_r. split; [reflexivity | constructor].
  - destruct (dictionary_joined a n Hn) as (d & -> & Hd). simpl.
    destruct (IH (dict_list ++ [d])%list) as (ds & -> & Hds).
    exists (d :: ds). rewrite <- app_assoc. split; [reflexivity |].
    constructor; [| exact Hds].
    unfold expected_json_entry. by rewrite Hn.
Qed.

(** C10.  For joined results [write_to_json] writes an array with one
    object per approach, in order: [datetime_utc] is the string
    [datetime_to_str] makes of the time (the format of [time_str]),
    distance, velocity, diameter are numbers, the designation a string,
    the hazard flag a boolean, and the [name] member of the nested [neo]
    object is [null] when the NEO has no name, where the CSV row has an
    empty field. *)
Theorem write_to_json_null_name `{Env} (results : list CloseApproach) :
  Forall joined results →
  write_to_json results = Return (JArray (expected_json_entry <$> results))
  ∧ (∀ a n, a ∈ results → neo a = Some n → name n = None →
       expected_json_entry a =
         JObject [("datetime_utc", JString (time_str a));
                  ("distance_au", JNumber (distance a));
                  ("velocity_km_s", JNumber (velocity a));
                  ("neo", JObject [("designation", JString (designation n));
                                   ("name", JNull);
                                   ("diameter_km", JNumber (diameter n));
                                   ("potentially_hazardous", JBool (hazardous n))])]
       ∧ expected_csv_row a n !! 4 = Some "").
Proof.
  intros Hj. split.
  - unfold write_to_json.
    destruct (json_loop_joined results [] Hj) as (ds & -> & Hds). simpl.
    by apply json_dump_list.
  - intros a n _ Hn Hname.
    unfold expected_json_entry, expected_json_object, expected_csv_row, time_str.
    by rewrite Hn, Hname.
Qed.

Lemma write_to_json_null_name_witness :
  @write_to_json Sample.env [Sample.approach_of (Some Sample.apophis_2029)]
  = Return (JArray
      [JObject [("datetime_utc", JString "2020-01-01 12:30");
                ("distance_au", JNumber (S754_finite false 7205759403792794 (-56)));
                ("velocity_km_s", JNumber (S754_finite false 5629499534213120 (-49)));
                ("neo", JObject [("designation", JString "99942");
                                 ("name", JNull);
                                 ("diameter_km", JNumber S754_nan);
                                 ("potentially_hazardous", JBool true)])]]).
Proof.
  destruct (@write_to_json_null_name Sample.env
              [Sample.approach_of (Some Sample.apophis_2029)]) as [-> _].
  - repeat constructor; eexists; reflexivity.
  - vm_compute. reflexivity.
Defined.

End WriterProperties.

(** ** Further properties of filters.py *)

Section FilterBehaviour.

Lemma SFcompare_antisym (x y : float) :
  SFcompare y x = CompOpp <$> SFcompare x y.
Proof.
  destruct x as [sx | sx | | sx mx ex], y as [sy | sy | | sy my ey];
    try destruct sx; try destruct sy; try reflexivity; simpl;
    rewrite (Z.compare_antisym ex ey);
    destruct (ex ?= ey)%Z; simpl; try reflexivity;
    by rewrite (Pos.compare_cont_antisym mx my Eq).
Qed.

Lemma float_range_is_equality (x y : float) :
  float_ge x y && float_le x y = float_eq x y.
Proof.
  unfold float_ge, float_le, float_eq, SFleb, SFeqb.
  rewrite (SFcompare_antisym x y).
  by destruct (SFcompare x y) as [[] |].
Qed.

Lemma date_compare_refl (d : date) : date_compare d d = Eq.
Proof. unfold date_compare. by rewrite !Nat.compare_refl. Qed.

Lemma call_float_nan (c : filter_class) (o : binop) (x : float) (approach : CloseApproach) :
  get c approach = Return (PyFloat nan) →
  call (new_filter c o (PyFloat x)) approach = Return false.
Proof.
  intros Hget. unfold call. simpl. rewrite Hget. simpl.
  by destruct o, x.
Qed.

(** X1.  An object loaded from a row whose diameter is empty is rejected
    by every diameter filter: whatever the comparator and the float bound,
    the filter returns [False] on its approaches (the unknown diameter is
    NaN, which compares false with everything). *)
Theorem unknown_diameter_never_matches (info : gmap string string)
    (n : NearEarthObject) (approach : CloseApproach) (o : binop) (x : float) :
  NearEarthObject_init info = Return n →
  info !! "diameter" = Some "" →
  neo approach = Some n →
  call (new_filter DiameterFilter o (PyFloat x)) approach = Return false.
Proof.
  intros Hinit Hd Hn.
  apply NearEarthObject_init_Return in Hinit
    as (pdes & nm & d & pha & y & _ & _ & Hd' & _ & Hy & ->).
  rewrite Hd in Hd'. injection Hd' as <-. simpl in Hy. injection Hy as <-.
  apply call_float_nan. unfold get, neo_attr. by rewrite Hn.
Qed.

Lemma unknown_diameter_never_matches_witness :
  NearEarthObject_init (Sample.row "99942" "" "" "Y") = Return Sample.apophis_2029
  ∧ call (new_filter DiameterFilter op_le (PyFloat (S754_infinity false)))
         (Sample.approach_of (Some Sample.apophis_2029)) = Return false.
Proof.
  assert (Hinit : NearEarthObject_init (Sample.row "99942" "" "" "Y")
                  = Return Sample.apophis_2029) by (vm_compute; reflexivity).
  split; [exact Hinit |].
  apply (unknown_diameter_never_matches _ _ _ _ _ Hinit); [vm_compute |]; reflexivity.
Defined.

(** X2.  The bounds of the date filters are inclusive and [date] is the
    conjunction of [start_date] and [end_date]: for a date [d], the filter
    of [date=d] accepts an approach exactly when the filters of
    [start_date=d] and of [end_date=d] both do, and all three accept an
    approach that happens on [d], at whatever time of day. *)
Theorem date_is_start_and_end (d : Py.date) (approach : CloseApproach) :
  (∃ on after before,
     call (new_filter DateFilter op_eq (PyDate d)) approach = Return on
     ∧ call (new_filter DateFilter op_ge (PyDate d)) approach = Return after
     ∧ call (new_filter DateFilter op_le (PyDate d)) approach = Return before
     ∧ on = after && before)
  ∧ (datetime_date (time approach) = d →
     call (new_filter DateFilter op_eq (PyDate d)) approach = Return true
     ∧ call (new_filter DateFilter op_ge (PyDate d)) approach = Return true
     ∧ call (new_filter DateFilter op_le (PyDate d)) approach = Return true).
Proof.
  split.
  - unfold call. simpl.
    do 3 eexists. repeat (split; [reflexivity |]).
    by destruct (date_compare _ d).
  - intros <-. unfold call. simpl. by rewrite date_compare_refl.
Qed.

Lemma date_is_start_and_end_witness :
  datetime_date (time (Sample.approach_of None)) = mk_date 2020 1 1
  ∧ call (new_filter DateFilter op_le (PyDate (mk_date 2020 1 1)))
         (Sample.approach_of None) = Return true.
Proof.
  split; [reflexivity |].
  apply (date_is_start_and_end (mk_date 2020 1 1) (Sample.approach_of None)).
  reflexivity.
Defined.

(** X3.  A minimum and a maximum at the same float [x] amount to
    equality with [x]: on distance, on velocity and on the diameter of a
    joined approach, the filters of [*_min=x] and [*_max=x] both accept an
    approach exactly when its attribute equals [x] as a float (so never
    when either is NaN, and with 0.0 equal to -0.0). *)
Theorem min_and_max_pin_the_value (x : float) (des : string) (t : datetime)
    (d vel : float) (n : NearEarthObject) :
  let approach := mk_approach des t d vel (Some n) in
  (∃ lo hi, call (new_filter DistanceFilter op_ge (PyFloat x)) approach = Return lo
            ∧ call (new_filter DistanceFilter op_le (PyFloat x)) approach = Return hi
            ∧ lo && hi = float_eq d x)
  ∧ (∃ lo hi, call (new_filter VelocityFilter op_ge (PyFloat x)) approach = Return lo
              ∧ call (new_filter VelocityFilter op_le (PyFloat x)) approach = Return hi
              ∧ lo && hi = float_eq vel x)
  ∧ (∃ lo hi, call (new_filter DiameterFilter op_ge (PyFloat x)) approach = Return lo
              ∧ call (new_filter DiameterFilter op_le (PyFloat x)) approach = Return hi
              ∧ lo && hi = float_eq (diameter n) x).
Proof.
  intros approach. unfold call. simpl.
  repeat split; do 2 eexists;
    (split; [reflexivity |]; split; [reflexivity |]; apply float_range_is_equality).
Qed.

(** X4.  A reference value of an unrelated type is not rejected when the
    filter is built, only when it is called: a date filter given a float
    and a distance or velocity filter given a date return [False] under
    [operator.eq] and raise [TypeError] under [operator.ge] and
    [operator.le]. *)
Theorem mismatched_reference_value (x : float) (d : Py.date) (approach : CloseApproach) :
  call (new_filter DateFilter op_eq (PyFloat x)) approach = Return false
  ∧ call (new_filter DateFilter op_ge (PyFloat x)) approach = Raise TypeError
  ∧ call (new_filter DateFilter op_le (PyFloat x)) approach = Raise TypeError
  ∧ call (new_filter DistanceFilter op_eq (PyDate d)) approach = Return false
  ∧ call (new_filter DistanceFilter op_ge (PyDate d)) approach = Raise TypeError
  ∧ call (new_filter DistanceFilter op_le (PyDate d)) approach = Raise TypeError
  ∧ call (new_filter VelocityFilter op_eq (PyDate d)) approach = Return false
  ∧ call (new_filter VelocityFilter op_ge (PyDate d)) approach = Raise TypeError
  ∧ call (new_filter VelocityFilter op_le (PyDate d)) approach = Raise TypeError.
Proof. repeat split. Qed.

(** X5.  Limiting twice is limiting once by the smaller cap: for positive
    caps [n] and [m], neither above [sys.maxsize],
    [limit(limit(s, n), m)] yields what [limit(s, min(n, m))] yields; and
    an absent or zero cap is neutral on either side. *)
Theorem limit_twice {A} (iterator : list A) (n m : Z) (k : option Z) :
  (0 < n <= maxsize)%Z → (0 < m <= maxsize)%Z →
  (limit iterator (Some n) ≫= λ s, limit s (Some m)) = limit iterator (Some (Z.min n m))
  ∧ (limit iterator None ≫= λ s, limit s k) = limit iterator k
  ∧ (limit iterator (Some 0%Z) ≫= λ s, limit s k) = limit iterator k
  ∧ (limit iterator k ≫= λ s, limit s None) = limit iterator k
  ∧ (limit iterator k ≫= λ s, limit s (Some 0%Z)) = limit iterator k.
Proof.
  intros Hn Hm. split; [| repeat split; by destruct (limit iterator k)].
  unfold limit, islice.
  destruct (Z.eqb_spec n 0); [lia |]. destruct (Z.eqb_spec m 0); [lia |].
  destruct (Z.eqb_spec (Z.min n m) 0); [lia |].
  destruct (Z.ltb_spec n 0); [lia |]. destruct (Z.ltb_spec m 0); [lia |].
  destruct (Z.ltb_spec (Z.min n m) 0); [lia |].
  destruct (Z.ltb_spec maxsize n); [lia |]. destruct (Z.ltb_spec maxsize m); [lia |].
  destruct (Z.ltb_spec maxsize (Z.min n m)); [lia |].
  simpl. rewrite take_take. do 2 f_equal. lia.
Qed.

Lemma limit_twice_witness :
  (limit [1; 2; 3; 4; 5] (Some 4%Z) ≫= λ s, limit s (Some 2%Z)) = Return [1; 2].
Proof.
  assert (H4 : (0 < 4 <= maxsize)%Z) by (by vm_compute).
  assert (H2 : (0 < 2 <= maxsize)%Z) by (by vm_compute).
  destruct (limit_twice [1; 2; 3; 4; 5] 4 2 None H4 H2) as [-> _].
  reflexivity.
Defined.

(** X6.  A cap that is not below the length of the sequence, and not
    above [sys.maxsize], changes nothing: [limit] returns the whole
    sequence. *)
Theorem limit_beyond_length {A} (iterator : list A) (n : Z) :
  (Z.of_nat (length iterator) <= n)%Z → (n <= maxsize)%Z →
  limit iterator (Some n) = Return iterator.
Proof.
  intros Hlen Hmax. unfold limit, islice.
  destruct (Z.eqb_spec n 0); [reflexivity |].
  destruct (Z.ltb_spec n 0); [lia |].
  destruct (Z.ltb_spec maxsize n); [lia |]. simpl.
  rewrite take_ge; [reflexivity | lia].
Qed.

Lemma limit_beyond_length_witness :
  limit [1; 2; 3] (Some 7%Z) = Return [1; 2; 3].
Proof. apply limit_beyond_length; [simpl; lia | by vm_compute]. Defined.

Lemma create_filters_list
    (date start_date end_date distance_min distance_max
     velocity_min velocity_max diameter_min diameter_max hazardous : pyobj) :
  create_filters date start_date end_date distance_min distance_max
    velocity_min velocity_max diameter_min diameter_max hazardous
  = (filter_of_option DateFilter op_eq date
     ++ filter_of_option DateFilter op_ge start_date
     ++ filter_of_option DateFilter op_le end_date
     ++ filter_of_option DistanceFilter op_ge distance_min
     ++ filter_of_option DistanceFilter op_le distance_max
     ++ filter_of_option VelocityFilter op_ge velocity_min
     ++ filter_of_option VelocityFilter op_le velocity_max
     ++ filter_of_option DiameterFilter op_ge diameter_min
     ++ filter_of_option DiameterFilter op_le diameter_max
     ++ filter_of_option HazardousFilter op_eq hazardous)%list.
Proof.
  unfold create_filters. rewrite !add_if_given_spec. simpl.
  by rewrite <- !app_assoc.
Qed.

Lemma elem_of_filter_of_option f c o v :
  f ∈ filter_of_option c o v → f = new_filter c o v ∧ v ≠ PyNone.
Proof.
  destruct v; simpl; rewrite ?elem_of_nil, ?list_elem_of_singleton;
    [done | by intros -> ..].
Qed.

(** X7.  No filter [create_filters] returns is of the base class or
    holds [None] as its reference value; hence calling one never raises
    [UnsupportedCriterionError], whatever the options and the approach. *)
Theorem created_filters_are_supported
    (date start_date end_date distance_min distance_max
     velocity_min velocity_max diameter_min diameter_max hazardous : pyobj)
    (f : AttributeFilter) (approach : CloseApproach) :
  f ∈ create_filters date start_date end_date distance_min distance_max
        velocity_min velocity_max diameter_min diameter_max hazardous →
  cls f ≠ AttributeFilter_base
  ∧ value f ≠ PyNone
  ∧ call f approach ≠ Raise UnsupportedCriterionError.
Proof.
  rewrite create_filters_list, !elem_of_app.
  intros Hf.
  assert (Hsome : ∃ c o v, c ≠ AttributeFilter_base ∧ f = new_filter c o v ∧ v ≠ PyNone).
  { repeat (destruct Hf as [Hf | Hf];
            [apply elem_of_filter_of_option in Hf as [-> Hv];
             eexists _, _, _; split; [| split; [reflexivity | exact Hv]]; discriminate |]).
    apply elem_of_filter_of_option in Hf as [-> Hv].
    eexists _, _, _; split; [| split; [reflexivity | exact Hv]]; discriminate. }
  destruct Hsome as (c & o & v & Hc & -> & Hv). simpl.
  split; [exact Hc |]. split; [exact Hv |].
  unfold call, get, neo_attr. simpl.
  destruct c; [done | ..]; try destruct (neo approach); simpl;
    destruct o, v; simpl; discriminate.
Qed.

Lemma created_filters_are_supported_witness :
  call (new_filter HazardousFilter op_eq (PyBool true)) (Sample.approach_of None)
  ≠ Raise UnsupportedCriterionError.
Proof.
  apply (created_filters_are_supported PyNone PyNone PyNone PyNone PyNone PyNone
           PyNone PyNone PyNone (PyBool true)).
  repeat constructor.
Defined.

Lemma Forall_filter_of_option (P : AttributeFilter → Prop) c o v :
  (v ≠ PyNone → P (new_filter c o v)) → Forall P (filter_of_option c o v).
Proof.
  intros HP. destruct v; simpl; [constructor | ..];
    (constructor; [by apply HP | constructor]).
Qed.

(** X8.  Criteria of the expected types never raise on a joined
    approach: when the date options are dates or absent, the numeric
    options floats or absent and [hazardous] a boolean or absent, every
    filter [create_filters] returns gives a verdict on every approach that
    has its NEO. *)
Theorem typed_criteria_give_verdicts
    (date start_date end_date : option Py.date)
    (distance_min distance_max velocity_min velocity_max
     diameter_min diameter_max : option float)
    (hazardous : option bool) (approach : CloseApproach) (n : NearEarthObject) :
  neo approach = Some n →
  Forall (λ f, ∃ verdict, call f approach = Return verdict)
    (create_filters
       (from_option PyDate PyNone date) (from_option PyDate PyNone start_date)
       (from_option PyDate PyNone end_date)
       (from_option PyFloat PyNone distance_min) (from_option PyFloat PyNone distance_max)
       (from_option PyFloat PyNone velocity_min) (from_option PyFloat PyNone velocity_max)
       (from_option PyFloat PyNone diameter_min) (from_option PyFloat PyNone diameter_max)
       (from_option PyBool PyNone hazardous)).
Proof.
  intros Hn. rewrite create_filters_list, !Forall_app.
  repeat split; apply Forall_filter_of_option; intros Hv;
    unfold call, get, neo_attr; simpl; rewrite ?Hn; simpl.
  - destruct date; [by eexists | done].
  - destruct start_date; [by eexists | done].
  - destruct end_date; [by eexists | done].
  - destruct distance_min; [by eexists | done].
  - destruct distance_max; [by eexists | done].
  - destruct velocity_min; [by eexists | done].
  - destruct velocity_max; [by eexists | done].
  - destruct diameter_min; [by eexists | done].
  - destruct diameter_max; [by eexists | done].
  - destruct hazardous; [by eexists | done].
Qed.

Lemma typed_criteria_give_verdicts_witness :
  Forall (λ f, ∃ verdict, call f (Sample.approach_of (Some Sample.eros)) = Return verdict)
    (create_filters (PyDate (mk_date 2020 1 1)) PyNone PyNone PyNone PyNone PyNone PyNone
       (PyFloat nan) PyNone (PyBool false)).
Proof.
  apply (typed_criteria_give_verdicts (Some (mk_date 2020 1 1)) None None None None None
           None (Some nan) None (Some false) _ Sample.eros).
  reflexivity.
Defined.

End FilterBehaviour.

(** ** Further properties of models.py and extract.py *)

Section LoaderBehaviour.

Lemma float_of_string_Return (s : string) (x : float) :
  py_float s = Return x → float_of_string s = Some x.
Proof. unfold py_float. destruct (float_of_string s); congruence. Qed.

Lemma index_Return (info : list string) (i : nat) (v : string) :
  index info i = Return v → info !! i = Some v.
Proof. unfold index. destruct (info !! i); congruence. Qed.

(** What a successful construction of a close approach read and built. *)
Lemma CloseApproach_init_Return `{Env} info n a :
  CloseApproach_init info n = Return a →
  ∃ des cd t d x v y,
    info !! 0 = Some des ∧ info !! 3 = Some cd ∧ cd_to_datetime cd = Return t
    ∧ info !! 4 = Some d ∧ float_of_string d = Some x
    ∧ info !! 7 = Some v ∧ float_of_string v = Some y
    ∧ a = mk_approach des t x y n.
Proof.
  unfold CloseApproach_init. intros H0.
  apply bind_Return in H0 as (des & Hdes & H0).
  apply bind_Return in H0 as (cd & Hcd & H0).
  apply bind_Return in H0 as (t & Ht & H0).
  apply bind_Return in H0 as (d & Hd & H0).
  apply bind_Return in H0 as (x & Hx & H0).
  apply bind_Return in H0 as (v & Hv & H0).
  apply bind_Return in H0 as (y & Hy & H0).
  injection H0 as <-.
  exists des, cd, t, d, x, v, y.
  auto 12 using index_Return, float_of_string_Return.
Qed.

Lemma collect_first_failure {A B} (f : A → result B) (before : list A) (x : A)
    (after : list A) (e : exn) :
  Forall (λ z, ∃ y, f z = Return y) before → f x = Raise e →
  collect f (before ++ x :: after) = Raise e.
Proof.
  intros Hb Hx. induction Hb as [| z l [y Hy] _ IH]; simpl.
  - by rewrite Hx.
  - by rewrite Hy, IH.
Qed.

(** X9.  [load_approaches] builds one approach per record, in the order
    of the records: its designation is field 0, its time what
    [cd_to_datetime] makes of field 3, its distance and velocity the
    floats read from fields 4 and 7, and its [neo] is [None]. *)
Theorem load_approaches_one_per_record `{Env} (data : list (list string))
    (approaches : list CloseApproach) :
  load_approaches data = Return approaches →
  length approaches = length data
  ∧ Forall2 (λ info a,
       info !! 0 = Some (_designation a)
       ∧ (∃ cd, info !! 3 = Some cd ∧ cd_to_datetime cd = Return (time a))
       ∧ (∃ d, info !! 4 = Some d ∧ float_of_string d = Some (distance a))
       ∧ (∃ v, info !! 7 = Some v ∧ float_of_string v = Some (velocity a))
       ∧ neo a = None) data approaches.
Proof.
  rewrite load_approaches_collect, collect_Return. intros Hall.
  split; [symmetry; by eapply Forall2_length |].
  eapply Forall2_impl; [exact Hall |]. intros info a Hinit. simpl in Hinit.
  apply CloseApproach_init_Return in Hinit
    as (des & cd & t & d & x & v & y & H0 & H3 & Ht & H4 & Hx & H7 & Hy & ->).
  simpl.
  split; [exact H0 |].
  split; [by exists cd |].
  split; [by exists d |].
  split; [by exists v | reflexivity].
Qed.

Lemma load_approaches_one_per_record_witness :
  let data := [["433"; "a"; "b"; "2020-Jan-01 12:30"; "0.1"; "c"; "d"; "10"]] in
  @load_approaches Sample.env data = Return [Sample.approach_of None]
  ∧ length [Sample.approach_of None] = length data.
Proof.
  intros data.
  assert (Hload : @load_approaches Sample.env data = Return [Sample.approach_of None])
    by (vm_compute; reflexivity).
  split; [exact Hload |].
  apply (@load_approaches_one_per_record Sample.env data _ Hload).
Defined.

(** X10.  Before the join the loaded approaches cannot be filtered by
    diameter or hazard: on every approach [load_approaches] returns, a
    diameter filter and a hazard filter raise [AttributeError] whatever
    the comparator and the reference value, whereas a distance or velocity
    filter with a float bound returns a verdict. *)
Theorem loaded_approaches_need_the_join `{Env} (data : list (list string))
    (approaches : list CloseApproach) (a : CloseApproach) (o : binop) (v : pyobj)
    (x : float) :
  load_approaches data = Return approaches →
  a ∈ approaches →
  call (new_filter DiameterFilter o v) a = Raise AttributeError
  ∧ call (new_filter HazardousFilter o v) a = Raise AttributeError
  ∧ call (new_filter DistanceFilter o (PyFloat x)) a = Return (float_holds o (distance a) x)
  ∧ call (new_filter VelocityFilter o (PyFloat x)) a = Return (float_holds o (velocity a) x).
Proof.
  rewrite load_approaches_collect, collect_Return. intros Hall Ha.
  assert (Hneo : neo a = None).
  { apply list_elem_of_lookup in Ha as [i Hi].
    destruct (Forall2_lookup_r _ _ _ _ _ Hall Hi) as (info & _ & Hinit).
    simpl in Hinit. apply CloseApproach_init_Return in Hinit
      as (? & ? & ? & ? & ? & ? & ? & _ & _ & _ & _ & _ & _ & _ & ->).
    reflexivity. }
  unfold call, get, neo_attr. simpl. rewrite Hneo. repeat split.
Qed.

Lemma loaded_approaches_need_the_join_witness :
  let data := [["433"; "a"; "b"; "2020-Jan-01 12:30"; "0.1"; "c"; "d"; "10"]] in
  @load_approaches Sample.env data = Return [Sample.approach_of None]
  ∧ call (new_filter HazardousFilter op_eq (PyBool false)) (Sample.approach_of None)
    = Raise AttributeError.
Proof.
  intros data.
  assert (Hload : @load_approaches Sample.env data = Return [Sample.approach_of None])
    by (vm_compute; reflexivity).
  split; [exact Hload |].
  apply (@loaded_approaches_need_the_join Sample.env data _ (Sample.approach_of None)
           op_eq (PyBool false) nan Hload).
  repeat constructor.
Defined.

Lemma index_ge (info : list string) (i : nat) :
  (length info ≤ i)%nat → index info i = Raise IndexError.
Proof. intros Hlen. unfold index. by rewrite lookup_ge_None_2. Qed.

Lemma short_record_raises `{Env} (info : list string) (n : option NearEarthObject) :
  (length info < 8)%nat → raises (CloseApproach_init info n).
Proof.
  intros Hlen. unfold CloseApproach_init, raises.
  destruct (index info 0) as [des |]; [| by eexists]. simpl.
  destruct (index info 3) as [cd |]; [| by eexists]. simpl.
  destruct (cd_to_datetime cd) as [t |]; [| by eexists]. simpl.
  destruct (index info 4) as [d |]; [| by eexists]. simpl.
  destruct (py_float d) as [x |]; [| by eexists]. simpl.
  rewrite (index_ge info 7) by lia. by eexists.
Qed.

(** X11.  A record with fewer than eight fields aborts the loading of the
    approaches: [load_approaches] raises and returns no list.  When the
    record has fewer than four fields and the records before it load, the
    exception is [IndexError], whatever comes after it. *)
Theorem short_record_aborts_load `{Env} (before after : list (list string))
    (info : list string) :
  (length info < 8)%nat →
  raises (load_approaches (before ++ info :: after))
  ∧ ((length info < 4)%nat →
     (∃ approaches, load_approaches before = Return approaches) →
     load_approaches (before ++ info :: after) = Raise IndexError).
Proof.
  intros Hlen. rewrite !load_approaches_collect. split.
  - eapply collect_raises; [| by apply short_record_raises].
    apply elem_of_app. right. constructor.
  - intros Hshort [approaches Hload].
    rewrite collect_Return in Hload.
    apply collect_first_failure.
    + apply Forall_forall. intros z Hz.
      apply list_elem_of_lookup in Hz as [i Hi].
      destruct (Forall2_lookup_l _ _ _ _ _ Hload Hi) as (a & _ & Ha). by exists a.
    + unfold CloseApproach_init.
      destruct info as [| des rest]; [reflexivity |].
      change (index (des :: rest) 0) with (Return (A:=string) des). simpl in Hshort |- *.
      change (index (des :: rest) 3) with (index rest 2).
      by rewrite (index_ge rest 2) by lia.
Qed.

Lemma short_record_aborts_load_witness :
  @load_approaches Sample.env
    ([["433"; "a"; "b"; "2020-Jan-01 12:30"; "0.1"; "c"; "d"; "10"]]
     ++ ["433"; "a"; "b"] :: []) = Raise IndexError.
Proof.
  apply (@short_record_aborts_load Sample.env
           [["433"; "a"; "b"; "2020-Jan-01 12:30"; "0.1"; "c"; "d"; "10"]] []
           ["433"; "a"; "b"]).
  - simpl. lia.
  - simpl. lia.
  - eexists. vm_compute. reflexivity.
Defined.

(** X12.  The loader stops at the first row it cannot build: when the
    rows before a row load and the constructor raises [e] on that row,
    [load_neos] raises [e], whatever the rows after it are (they are
    never built, even if they are malformed too). *)
Theorem load_neos_first_failure (before after : list (gmap string string))
    (line : gmap string string) (e : exn) :
  (∃ neos, load_neos before = Return neos) →
  NearEarthObject_init line = Raise e →
  load_neos (before ++ line :: after) = Raise e.
Proof.
  intros [neos Hload] Hline.
  rewrite load_neos_collect, collect_Return in Hload.
  rewrite load_neos_collect. apply collect_first_failure; [| exact Hline].
  apply Forall_forall. intros z Hz.
  apply list_elem_of_lookup in Hz as [i Hi].
  destruct (Forall2_lookup_l _ _ _ _ _ Hload Hi) as (n & _ & Hn). by exists n.
Qed.

Lemma load_neos_first_failure_witness :
  load_neos ([Sample.row "433" "Eros" "16.84" "N"]
             ++ Sample.row "99942" "" "wide" "Y" :: [∅]) = Raise ValueError.
Proof.
  apply load_neos_first_failure.
  - eexists. vm_compute. reflexivity.
  - vm_compute. reflexivity.
Defined.



(** X14.  What every object built by the constructor satisfies: its name
    is [None] or a non-empty string, never the empty string; it is
    hazardous exactly when the [pha] column is the one letter [Y]; its
    diameter is NaN when the column is empty and otherwise the float read
    from the column; it has no approaches yet. *)
Theorem constructed_neo_invariants (info : gmap string string) (n : NearEarthObject) :
  NearEarthObject_init info = Return n →
  name n ≠ Some ""
  ∧ (hazardous n = true ↔ info !! "pha" = Some "Y")
  ∧ (info !! "diameter" = Some "" → diameter n = nan)
  ∧ (∀ d, info !! "diameter" = Some d → d ≠ "" → float_of_string d = Some (diameter n))
  ∧ approaches n = [].
Proof.
  intros Hinit.
  apply NearEarthObject_init_Return in Hinit
    as (pdes & nm & d & pha & x & _ & _ & Hd & Hh & Hx & ->). simpl.
  split; [| split; [| split; [| split]]].
  - destruct (String.eqb_spec nm ""); congruence.
  - rewrite Hh. destruct (String.eqb_spec pha "Y"); split; congruence.
  - rewrite Hd. intros [= ->]. simpl in Hx. congruence.
  - rewrite Hd. intros d' [= <-] Hne.
    destruct (String.eqb_spec d ""); [done |].
    by apply float_of_string_Return.
  - reflexivity.
Qed.

Lemma constructed_neo_invariants_witness :
  NearEarthObject_init (Sample.row "433" "Eros" "16.84" "N") = Return Sample.eros
  ∧ name Sample.eros ≠ Some "".
Proof.
  assert (Hinit : NearEarthObject_init (Sample.row "433" "Eros" "16.84" "N")
                  = Return Sample.eros) by (vm_compute; reflexivity).
  split; [exact Hinit |].
  apply (constructed_neo_invariants _ _ Hinit).
Defined.

Lemma append_longer (s t : string) : t ≠ "" → s +:+ t ≠ s.
Proof.
  intros Ht. induction s as [| c s IH]; simpl; [exact Ht |].
  intros [= Heq]. by apply IH.
Qed.

(** X15.  The full name always starts with the designation, and it is
    the designation alone exactly when the object has no name. *)
Theorem fullname_extends_designation (n : NearEarthObject) :
  (∃ rest, fullname n = designation n +:+ rest)
  ∧ (fullname n = designation n ↔ name n = None).
Proof.
  unfold fullname. destruct (name n) as [nm |]; split.
  - by exists (" " +:+ nm).
  - split; [| done]. intros Heq. by apply append_longer in Heq.
  - exists "". clear. induction (designation n) as [| c s IH]; [done |].
    change (String c s = String c (s +:+ "")). by rewrite <- IH.
  - done.
Qed.

End LoaderBehaviour.

(** ** Further properties of write.py *)

Section WriterBehaviour.

Lemma csv_row_unjoined (approach : CloseApproach) :
  neo approach = None → csv_row approach = Raise AttributeError.
Proof. intros Hn. unfold csv_row, neo_attr. by rewrite Hn. Qed.

Lemma dictionary_unjoined `{Env} (approach : CloseApproach) :
  neo approach = None → dictionary approach = Raise AttributeError.
Proof. intros Hn. unfold dictionary, neo_attr. by rewrite Hn. Qed.

Lemma joined_or_not (approach : CloseApproach) :
  joined approach ∨ neo approach = None.
Proof. unfold joined. destruct (neo approach); [left; eauto | by right]. Qed.

Lemma length_expected_csv_row (approach : CloseApproach) (n : NearEarthObject) :
  length (expected_csv_row approach n) = 7.
Proof. reflexivity. Qed.

(** The rows [write_rows] adds, and whether it fails, for any results. *)
Lemma write_rows_any (results : list CloseApproach) (outfile : csv_file) :
  ∃ rows, fst (write_rows results outfile) = (outfile ++ rows)%list
          ∧ Forall (λ row, length row = 7) rows
          ∧ (length rows ≤ length results)%nat
          ∧ (snd (write_rows results outfile) = Return tt
             ∨ snd (write_rows results outfile) = Raise AttributeError).
Proof.
  revert outfile. induction results as [| a l IH]; intros outfile; simpl.
  - exists []. rewrite app_nil_r.
    split; [reflexivity |]. split; [constructor |]. split; [simpl; lia | by left].
  - destruct (joined_or_not a) as [[n Hn] | Hn].
    + destruct (csv_row_joined a n Hn) as (row & -> & Hrow).
      assert (Hw : writerow row outfile = (outfile ++ [expected_csv_row a n])%list)
        by (unfold writerow; by rewrite Hrow).
      rewrite Hw.
      destruct (IH (outfile ++ [expected_csv_row a n])%list)
        as (rows & Hfst & Hlen & Hle & Hsnd).
      exists (expected_csv_row a n :: rows).
      split; [by rewrite Hfst, <- app_assoc |].
      split; [constructor; [reflexivity | exact Hlen] |].
      split; [simpl; lia | exact Hsnd].
    + rewrite (csv_row_unjoined a Hn). simpl.
      exists []. rewrite app_nil_r.
      split; [reflexivity |]. split; [constructor |]. split; [simpl; lia | by right].
Qed.

(** X16.  When an approach of the results has no NEO, [write_to_csv]
    raises [AttributeError] at that approach and leaves a partial file:
    the header and the rows of the approaches before it. *)
Theorem write_to_csv_partial_file (before after : list CloseApproach)
    (approach : CloseApproach) :
  Forall joined before → neo approach = None →
  write_to_csv (before ++ approach :: after)
  = (fieldnames :: (expected_csv_line <$> before), Raise AttributeError).
Proof.
  intros Hb Hn.
  assert (Hgen : ∀ out, write_rows (before ++ approach :: after) out
                        = ((out ++ (expected_csv_line <$> before))%list, Raise AttributeError)).
  { induction Hb as [| a l [n Ha] _ IH]; intros out; simpl.
    - rewrite (csv_row_unjoined approach Hn). by rewrite app_nil_r.
    - destruct (csv_row_joined a n Ha) as (row & -> & Hrow).
      rewrite IH. unfold writerow. rewrite Hrow, <- app_assoc. simpl.
      unfold expected_csv_line at 2. by rewrite Ha. }
  unfold write_to_csv. by rewrite Hgen.
Qed.

Lemma write_to_csv_partial_file_witness :
  write_to_csv ([Sample.approach_of (Some Sample.eros)]
                ++ Sample.approach_of None :: [Sample.approach_of (Some Sample.eros)])
  = ([fieldnames; ["2020-01-01 12:30:00"; "0.1"; "10.0"; "433"; "Eros"; "16.84"; "False"]],
     Raise AttributeError).
Proof.
  rewrite (write_to_csv_partial_file [Sample.approach_of (Some Sample.eros)]
             [Sample.approach_of (Some Sample.eros)] (Sample.approach_of None)).
  - vm_compute. reflexivity.
  - repeat constructor. eexists. reflexivity.
  - reflexivity.
Defined.

(** X17.  Whatever the results, and whether or not the call fails, the
    file [write_to_csv] leaves starts with the header row, every row in it
    has seven fields like the header, there is at most one row per
    approach after the header, and the call either succeeds or raises
    [AttributeError]. *)
Theorem write_to_csv_file_shape (results : list CloseApproach) :
  ∃ rows, fst (write_to_csv results) = fieldnames :: rows
          ∧ Forall (λ row, length row = 7) (fst (write_to_csv results))
          ∧ (length rows ≤ length results)%nat
          ∧ (snd (write_to_csv results) = Return tt
             ∨ snd (write_to_csv results) = Raise AttributeError).
Proof.
  unfold write_to_csv.
  destruct (write_rows_any results (writerow (PyStr <$> fieldnames) []))
    as (rows & Hfst & Hlen & Hle & Hsnd).
  exists rows. rewrite Hfst.
  split; [reflexivity |].
  split; [constructor; [reflexivity | exact Hlen] |].
  split; [exact Hle | exact Hsnd].
Qed.

Lemma all_joined_or_not (results : list CloseApproach) :
  Forall joined results ∨ Exists (λ a, neo a = None) results.
Proof.
  induction results as [| a l [IH | IH]].
  - left. constructor.
  - destruct (joined_or_not a) as [Ha | Ha].
    + left. by constructor.
    + right. by constructor.
  - right. by constructor.
Qed.

Lemma write_rows_unjoined (results : list CloseApproach) (outfile : csv_file) :
  Exists (λ a, neo a = None) results →
  snd (write_rows results outfile) = Raise AttributeError.
Proof.
  intros Hex. revert outfile.
  induction results as [| a l IH]; intros outfile; [by apply Exists_nil in Hex |].
  simpl. destruct (joined_or_not a) as [[n Hn] | Hn].
  - destruct (csv_row_joined a n Hn) as (row & -> & _).
    apply IH. apply Exists_cons in Hex as [Ha | Hl]; [congruence | exact Hl].
  - by rewrite (csv_row_unjoined a Hn).
Qed.

Lemma json_loop_unjoined `{Env} (results : list CloseApproach) (dict_list : list pytree) :
  Exists (λ a, neo a = None) results →
  json_loop results dict_list = Raise AttributeError.
Proof.
  intros Hex. revert dict_list.
  induction results as [| a l IH]; intros dict_list; [by apply Exists_nil in Hex |].
  simpl. destruct (joined_or_not a) as [[n Hn] | Hn].
  - destruct (dictionary_joined a n Hn) as (d & -> & _). simpl.
    apply IH. apply Exists_cons in Hex as [Ha | Hl]; [congruence | exact Hl].
  - by rewrite (dictionary_unjoined a Hn).
Qed.

(** X18.  The two writers accept the same results.  Either every
    approach has its NEO, and then both succeed, the JSON document being
    an array with one element per approach; or some approach has none, and
    then both raise [AttributeError], [write_to_json] without having
    serialised anything. *)
Theorem writers_agree `{Env} (results : list CloseApproach) :
  (Forall joined results
   ∧ snd (write_to_csv results) = Return tt
   ∧ ∃ elements, write_to_json results = Return (JArray elements)
                 ∧ length elements = length results)
  ∨ (Exists (λ a, neo a = None) results
     ∧ snd (write_to_csv results) = Raise AttributeError
     ∧ write_to_json results = Raise AttributeError).
Proof.
  destruct (all_joined_or_not results) as [Hj | Hex]; [left | right].
  - split; [exact Hj |]. split.
    + unfold write_to_csv. by rewrite write_rows_joined.
    + exists (expected_json_entry <$> results). split; [| apply length_fmap].
      unfold write_to_json.
      destruct (json_loop_joined results [] Hj) as (ds & -> & Hds). simpl.
      by apply json_dump_list.
  - split; [exact Hex |]. split.
    + unfold write_to_csv. by apply write_rows_unjoined.
    + unfold write_to_json. by rewrite json_loop_unjoined.
Qed.

End WriterBehaviour.
